(** * aaa-service infrastructure: the declared resource graph

    A shallow embedding of [infrastructure/app.py] and of the three stacks
    it instantiates ([stacks/iam_stack.py], [stacks/database_stack.py],
    [stacks/container_stack.py]).

    The Python program builds a construct tree in memory: every constructor
    call [Kind(self, "Id", props...)] adds one node below its scope, a few
    methods ([add_ingress_rule], [add_to_policy]) mutate a node that other
    nodes refer to, and [app.synth()] turns the finished tree into the
    templates that are deployed.  The tree is modelled as a store of nodes
    addressed by their path, construction as a state-and-exception monad
    over that store, and object references as paths into it.  An exception
    leaves the tree as it was built so far; the script does not catch it,
    so nothing is synthesized after one. *)

From Stdlib Require Import Ascii String.
From stdpp Require Import base strings list gmap.

Open Scope string_scope.

(** ** The construct tree *)

(** A node is addressed by the ids on the way from the app to it. *)
Abbreviation Path := (list string).

Fixpoint path_eqb (p q : Path) : bool :=
  match p, q with
  | [], [] => true
  | a :: p', b :: q' => String.eqb a b && path_eqb p' q'
  | _, _ => false
  end.

(** A string that may be known only at deploy time: a literal, or an
    attribute of a declared node ([vpc.vpc_cidr_block],
    [repo.repository_arn], ...). *)
Inductive tstring :=
| Lit (s : string)
| Attr (node : Path) (attribute : string).

Global Instance tstring_eq_dec : EqDecision tstring.
Proof. solve_decision. Defined.

Definition tstring_eqb (s1 s2 : tstring) : bool :=
  match s1, s2 with
  | Lit a, Lit b => String.eqb a b
  | Attr p a, Attr q b => path_eqb p q && String.eqb a b
  | _, _ => false
  end.

(** The SDK's ordered set: [push] keeps the first occurrence of each
    element and the order of arrival. *)
Fixpoint push_all {A} (eqb : A → A → bool) (set xs : list A) : list A :=
  match xs with
  | [] => set
  | x :: xs' =>
      push_all eqb (if existsb (eqb x) set then set else app set [x]) xs'
  end.

Definition ordered_set {A} (eqb : A → A → bool) (xs : list A) : list A :=
  push_all eqb [] xs.

Inductive RemovalPolicy :=
| DESTROY
| RETAIN
| SNAPSHOT
| RETAIN_ON_UPDATE_OR_DELETE.

Module Duration.
Record t := { to_seconds : N }.
Definition seconds (n : N) : t := {| to_seconds := n |}.
Definition days (n : N) : t := {| to_seconds := n * 86400 |}.
Definition to_days (d : t) : N := (to_seconds d / 86400)%N.
End Duration.

Module ec2.
Inductive SubnetType := PUBLIC | PRIVATE_WITH_EGRESS | PRIVATE_ISOLATED.

Record SubnetConfiguration := {
  name : string;
  subnet_type : SubnetType;
  cidr_mask : N
}.

Record Vpc := {
  max_azs : N;
  nat_gateways : N;
  subnet_configuration : list SubnetConfiguration
}.

Record SubnetSelection := { selected_subnet_type : SubnetType }.

Inductive Protocol := TCP | UDP | ALL.

Record Port := { protocol : Protocol; from_port : N; to_port : N }.

(** [ec2.Port.tcp(p)] *)
Definition tcp (p : N) : Port :=
  {| protocol := TCP; from_port := p; to_port := p |}.

Record Peer := ipv4 { cidr : tstring }.

(** [ec2.Peer.any_ipv4()]: the whole IPv4 internet. *)
Definition any_ipv4 : Peer := ipv4 (Lit "0.0.0.0/0").

Record IngressRule := {
  peer : Peer;
  connection : Port;
  rule_description : string
}.

Record SecurityGroup := {
  vpc : Path;
  description : string;
  allow_all_outbound : bool;
  ingress_rules : list IngressRule
}.

Inductive InstanceClass := T3.
Inductive InstanceSize := MEDIUM.
Record InstanceType := InstanceType_of { instance_class : InstanceClass; instance_size : InstanceSize }.
End ec2.

Module secretsmanager.
Record SecretStringGenerator := {
  secret_string_template : string;
  generate_string_key : string;
  exclude_characters : string
}.

Record Secret := { generate_secret_string : SecretStringGenerator }.
End secretsmanager.

Module iam.
Inductive Effect := ALLOW | DENY.

(** A policy statement as the role holds it. *)
Record Statement := {
  effect : Effect;
  actions : list string;
  resources : list tstring
}.

(** [iam.PolicyStatement(effect=, actions=, resources=)]: the statement
    keeps its actions and its resources in ordered sets, so an entry
    passed more than once is held once. *)
Definition PolicyStatement (effect : Effect) (actions : list string)
    (resources : list tstring) : Statement :=
  {| effect := effect;
     actions := ordered_set String.eqb actions;
     resources := ordered_set tstring_eqb resources |}.

Record ServicePrincipal := { service : string }.

Record Role := {
  assumed_by : ServicePrincipal;
  description : string;
  managed_policies : list string;
  policy : list Statement
}.
End iam.

Module rds.
Inductive AuroraPostgresEngineVersion := VER_16_1.

Record DatabaseClusterEngine :=
  aurora_postgres { version : AuroraPostgresEngineVersion }.

Record Credentials := from_secret { secret : Path }.

(** The properties the SDK's [InstanceProps] struct declares, as far as
    the stack passes them; the struct has no monitoring role. *)
Record InstanceProps := {
  vpc : Path;
  vpc_subnets : option ec2.SubnetSelection;
  security_groups : option (list Path);
  instance_type : option ec2.InstanceType
}.

Record BackupProps := {
  retention : Duration.t;
  preferred_window : string
}.

(** The properties the SDK's [DatabaseCluster] declares, as far as the
    stack passes them; it has no associated roles. *)
Record DatabaseCluster := {
  engine : DatabaseClusterEngine;
  credentials : option Credentials;
  instance_props : option InstanceProps;
  instances : option N;
  backup : option BackupProps;
  monitoring_interval : option Duration.t;
  parameter_group : option Path;
  removal_policy : option RemovalPolicy
}.
End rds.

Module ecr.
Record LifecycleRule := {
  max_image_count : N;
  description : string
}.

Record Repository := {
  repository_name : string;
  removal_policy : RemovalPolicy;
  image_scan_on_push : bool;
  lifecycle_rules : list LifecycleRule
}.
End ecr.

Record Environment := { region : string; account : option string }.

Record CfnOutput := { value : tstring; description : string }.

Inductive Construct :=
| CStack (env : Environment)
| CVpc (v : ec2.Vpc)
| CSecurityGroup (g : ec2.SecurityGroup)
| CSecret (s : secretsmanager.Secret)
| CRole (r : iam.Role)
| CImportedRole (role_arn : string)
| CImportedParameterGroup (parameter_group_name : string)
| CCluster (c : rds.DatabaseCluster)
| CRepository (r : ecr.Repository)
| COutput (o : CfnOutput).

(** The app: its deploy-time context (a dictionary of strings) and the
    nodes declared so far, oldest first. *)
Record Tree := {
  context : gmap string string;
  nodes : list (Path * Construct)
}.

(** ** Construction: state over the tree, with Python's exceptions *)

Inductive Exn :=
| TypeError (argument : string)
| AttributeError (method : string)
| RuntimeError (construct : string).

(** A computation ends with an exception or a value; either way the tree
    is what has been built up to then. *)
Definition M (A : Type) : Type := Tree → Exn * Tree + A * Tree.

Definition ret {A} (a : A) : M A := λ t, inr (a, t).

Definition raise {A} (e : Exn) : M A := λ t, inl (e, t).

Definition bind {A B} (m : M A) (k : A → M B) : M B :=
  λ t, match m t with
       | inl (e, t') => inl (e, t')
       | inr (a, t') => k a t'
       end.

Notation "x <- m ;; k" := (bind m (λ x, k))
  (at level 100, m at next level, right associativity, only parsing).
Notation "m ;;; k" := (bind m (λ _, k))
  (at level 100, right associativity, only parsing).

(** [scope.node.try_get_context(key)]: [None] when the key is absent. *)
Definition try_get_context (key : string) : M (option string) :=
  λ t, inr (context t !! key, t).

(** The path of the node [id] below [scope]. *)
Definition child (scope : Path) (id : string) : Path := app scope [id].

Fixpoint lookup_node (p : Path) (l : list (Path * Construct)) : option Construct :=
  match l with
  | [] => None
  | (q, c) :: l' => if path_eqb q p then Some c else lookup_node p l'
  end.

Fixpoint update_node (p : Path) (c' : Construct) (l : list (Path * Construct))
  : list (Path * Construct) :=
  match l with
  | [] => []
  | (q, c) :: l' =>
      if path_eqb q p then (q, c') :: l' else (q, c) :: update_node p c' l'
  end.

(** [Kind(scope, id, ...)]: the node is added below [scope], and the
    Python object is its path; a second node with an id already taken in
    the scope is refused. *)
Definition new (scope : Path) (id : string) (c : Construct) : M Path :=
  λ t, match lookup_node (child scope id) (nodes t) with
       | Some _ => inl (RuntimeError id, t)
       | None =>
           inr (child scope id,
                {| context := context t;
                   nodes := app (nodes t) [(child scope id, c)] |})
       end.

Definition get (p : Path) : M (option Construct) :=
  λ t, inr (lookup_node p (nodes t), t).

Definition put (p : Path) (c : Construct) : M unit :=
  λ t, inr (tt, {| context := context t; nodes := update_node p c (nodes t) |}).

(** [security_group.add_ingress_rule(peer, connection, description)]
    mutates the security group every holder of the object sees. *)
Definition add_ingress_rule (sg : Path) (peer : ec2.Peer) (connection : ec2.Port)
    (description : string) : M unit :=
  o <- get sg;;
  match o with
  | Some (CSecurityGroup g) =>
      put sg (CSecurityGroup
        {| ec2.vpc := ec2.vpc g;
           ec2.description := ec2.description g;
           ec2.allow_all_outbound := ec2.allow_all_outbound g;
           ec2.ingress_rules :=
             app (ec2.ingress_rules g)
               [{| ec2.peer := peer; ec2.connection := connection;
                   ec2.rule_description := description |}] |})
  | _ => raise (AttributeError "add_ingress_rule")
  end.

(** [role.add_to_policy(statement)] *)
Definition add_to_policy (role : Path) (statement : iam.Statement) : M unit :=
  o <- get role;;
  match o with
  | Some (CRole r) =>
      put role (CRole
        {| iam.assumed_by := iam.assumed_by r;
           iam.description := iam.description r;
           iam.managed_policies := iam.managed_policies r;
           iam.policy := app (iam.policy r) [statement] |})
  | _ => raise (AttributeError "add_to_policy")
  end.

(** Attributes read off declared objects. *)
Definition vpc_cidr_block (vpc : Path) : tstring := Attr vpc "CidrBlock".
Definition repository_arn (repo : Path) : tstring := Attr repo "Arn".
Definition repository_uri (repo : Path) : tstring := Attr repo "RepositoryUri".
Definition role_arn (role : Path) : tstring := Attr role "Arn".
Definition secret_arn (s : Path) : tstring := Attr s "Arn".
Definition cluster_endpoint_hostname (c : Path) : tstring := Attr c "Endpoint.Address".

(** Modelled from the spec: the provisioning SDK's role import
    ([iam.Role.from_role_arn]) is not under src/.  Spec section 3: a role is
    referenced by its identifier; section 7: when the identifier is absent
    from the context, resolution fails fast. *)
Definition from_role_arn (scope : Path) (id : string) (role_arn : option string)
  : M Path :=
  match role_arn with
  | None => raise (TypeError "role_arn")
  | Some arn => new scope id (CImportedRole arn)
  end.

(** [rds.ParameterGroup.from_parameter_group_name(scope, id, name)] *)
Definition from_parameter_group_name (scope : Path) (id : string)
    (parameter_group_name : string) : M Path :=
  new scope id (CImportedParameterGroup parameter_group_name).

(** [Stack.__init__(scope, construct_id, env=...)] *)
Definition Stack (scope : Path) (construct_id : string) (env : Environment)
  : M Path :=
  new scope construct_id (CStack env).

(** ** Calls by keyword *)

(** The values the database stack passes by keyword. *)
Inductive Value :=
| VConstruct (p : Path)
| VConstructs (l : list Path)
| VNumber (n : N)
| VSubnetSelection (s : ec2.SubnetSelection)
| VInstanceType (i : ec2.InstanceType)
| VEngine (e : rds.DatabaseClusterEngine)
| VCredentials (c : rds.Credentials)
| VInstanceProps (p : rds.InstanceProps)
| VBackupProps (b : rds.BackupProps)
| VDuration (d : Duration.t)
| VRemovalPolicy (r : RemovalPolicy).

Abbreviation Kwargs := (list (string * Value)).

Fixpoint kwarg (key : string) (kwargs : Kwargs) : option Value :=
  match kwargs with
  | [] => None
  | (k, v) :: rest => if String.eqb k key then Some v else kwarg key rest
  end.

(** Binding the keywords of a call to the parameters the callee declares:
    Python raises [TypeError] at the first keyword that is none of them. *)
Fixpoint bind_keywords (declared : list string) (kwargs : Kwargs) : M unit :=
  match kwargs with
  | [] => ret tt
  | (k, _) :: rest =>
      if existsb (String.eqb k) declared
      then bind_keywords declared rest
      else raise (TypeError k)
  end.

(** A parameter that may be left out, and one that may not; a value of
    another type than declared is a [TypeError] too. *)
Definition optional {A} (key : string) (read : Value → option A)
    (kwargs : Kwargs) : M (option A) :=
  match kwarg key kwargs with
  | None => ret None
  | Some v =>
      match read v with
      | Some a => ret (Some a)
      | None => raise (TypeError key)
      end
  end.

Definition required {A} (key : string) (read : Value → option A)
    (kwargs : Kwargs) : M A :=
  match kwarg key kwargs with
  | None => raise (TypeError key)
  | Some v =>
      match read v with
      | Some a => ret a
      | None => raise (TypeError key)
      end
  end.

Definition as_construct (v : Value) : option Path :=
  match v with VConstruct p => Some p | _ => None end.
Definition as_constructs (v : Value) : option (list Path) :=
  match v with VConstructs l => Some l | _ => None end.
Definition as_number (v : Value) : option N :=
  match v with VNumber n => Some n | _ => None end.
Definition as_subnet_selection (v : Value) : option ec2.SubnetSelection :=
  match v with VSubnetSelection s => Some s | _ => None end.
Definition as_instance_type (v : Value) : option ec2.InstanceType :=
  match v with VInstanceType i => Some i | _ => None end.
Definition as_engine (v : Value) : option rds.DatabaseClusterEngine :=
  match v with VEngine e => Some e | _ => None end.
Definition as_credentials (v : Value) : option rds.Credentials :=
  match v with VCredentials c => Some c | _ => None end.
Definition as_instance_props (v : Value) : option rds.InstanceProps :=
  match v with VInstanceProps p => Some p | _ => None end.
Definition as_backup_props (v : Value) : option rds.BackupProps :=
  match v with VBackupProps b => Some b | _ => None end.
Definition as_duration (v : Value) : option Duration.t :=
  match v with VDuration d => Some d | _ => None end.
Definition as_removal_policy (v : Value) : option RemovalPolicy :=
  match v with VRemovalPolicy r => Some r | _ => None end.

(** The keywords the SDK's [rds.InstanceProps] struct declares;
    [monitoring_role] is none of them. *)
Definition InstanceProps_keywords : list string :=
  [ "vpc"; "allow_major_version_upgrade"; "auto_minor_version_upgrade";
    "delete_automated_backups"; "enable_performance_insights";
    "instance_type"; "parameter_group"; "parameters";
    "performance_insight_encryption_key"; "performance_insight_retention";
    "preferred_maintenance_window"; "publicly_accessible";
    "security_groups"; "vpc_subnets" ].

(** [rds.InstanceProps(...)] *)
Definition rds_InstanceProps (kwargs : Kwargs) : M rds.InstanceProps :=
  bind_keywords InstanceProps_keywords kwargs;;;
  vpc <- required "vpc" as_construct kwargs;;
  vpc_subnets <- optional "vpc_subnets" as_subnet_selection kwargs;;
  security_groups <- optional "security_groups" as_constructs kwargs;;
  instance_type <- optional "instance_type" as_instance_type kwargs;;
  ret {| rds.vpc := vpc;
         rds.vpc_subnets := vpc_subnets;
         rds.security_groups := security_groups;
         rds.instance_type := instance_type |}.

(** The keywords the SDK's [rds.DatabaseCluster] declares;
    [associated_roles] is none of them. *)
Definition DatabaseCluster_keywords : list string :=
  [ "engine"; "backtrack_window"; "backup"; "cloudwatch_logs_exports";
    "cloudwatch_logs_retention"; "cloudwatch_logs_retention_role";
    "cluster_identifier"; "copy_tags_to_snapshot"; "credentials";
    "default_database_name"; "deletion_protection"; "iam_authentication";
    "instance_identifier_base"; "instance_props"; "instances";
    "instance_update_behaviour"; "monitoring_interval"; "monitoring_role";
    "network_type"; "parameter_group"; "parameters"; "port";
    "preferred_maintenance_window"; "readers"; "removal_policy";
    "s3_export_buckets"; "s3_export_role"; "s3_import_buckets";
    "s3_import_role"; "security_groups"; "serverless_v2_max_capacity";
    "serverless_v2_min_capacity"; "storage_encrypted";
    "storage_encryption_key"; "storage_type"; "subnet_group"; "vpc";
    "vpc_subnets"; "writer" ].

(** [rds.DatabaseCluster(scope, id, ...)] *)
Definition rds_DatabaseCluster (scope : Path) (id : string) (kwargs : Kwargs)
  : M Path :=
  bind_keywords DatabaseCluster_keywords kwargs;;;
  engine <- required "engine" as_engine kwargs;;
  credentials <- optional "credentials" as_credentials kwargs;;
  instance_props <- optional "instance_props" as_instance_props kwargs;;
  instances <- optional "instances" as_number kwargs;;
  backup <- optional "backup" as_backup_props kwargs;;
  monitoring_interval <- optional "monitoring_interval" as_duration kwargs;;
  parameter_group <- optional "parameter_group" as_construct kwargs;;
  removal_policy <- optional "removal_policy" as_removal_policy kwargs;;
  new scope id (CCluster
    {| rds.engine := engine;
       rds.credentials := credentials;
       rds.instance_props := instance_props;
       rds.instances := instances;
       rds.backup := backup;
       rds.monitoring_interval := monitoring_interval;
       rds.parameter_group := parameter_group;
       rds.removal_policy := removal_policy |}).

(** The double quote and the backslash, by character code, and a string
    between double quotes. *)
Definition dquote : ascii := "034"%char.
Definition backslash : ascii := "092"%char.
Definition q (s : string) : string :=
  String dquote s +:+ String dquote EmptyString.

(** ** stacks/database_stack.py *)

Definition DatabaseStack (scope : Path) (construct_id : string)
    (env : Environment) : M Path :=
  self <- Stack scope construct_id env;;
  (* Create VPC *)
  vpc <- new self "DatabaseVPC" (CVpc
    {| ec2.max_azs := 2;
       ec2.nat_gateways := 1;
       ec2.subnet_configuration :=
         [ {| ec2.name := "Public";
              ec2.subnet_type := ec2.PUBLIC;
              ec2.cidr_mask := 24 |};
           {| ec2.name := "Private";
              ec2.subnet_type := ec2.PRIVATE_WITH_EGRESS;
              ec2.cidr_mask := 24 |} ] |});;
  (* Create security group for Aurora *)
  db_security_group <- new self "DatabaseSecurityGroup" (CSecurityGroup
    {| ec2.vpc := vpc;
       ec2.description := "Security group for Aurora PostgreSQL";
       ec2.allow_all_outbound := true;
       ec2.ingress_rules := [] |});;
  (* Allow inbound PostgreSQL traffic from VPC *)
  add_ingress_rule db_security_group
    (ec2.ipv4 (vpc_cidr_block vpc))
    (ec2.tcp 5432)
    "Allow PostgreSQL traffic from VPC";;;
  (* Create database credentials in Secrets Manager *)
  db_credentials <- new self "DatabaseCredentials" (CSecret
    {| secretsmanager.generate_secret_string :=
         {| secretsmanager.secret_string_template :=
              "{" +:+ q "username" +:+ ": " +:+ q "aaa_user" +:+ "}";
            secretsmanager.generate_string_key := "password";
            secretsmanager.exclude_characters :=
              String dquote (String "@" (String "/" (String backslash EmptyString)))
         |} |});;
  (* Get the IAM roles from the IAM stack *)
  a <- try_get_context "database_access_role_arn";;
  db_access_role <- from_role_arn self "ImportedDatabaseAccessRole" a;;
  m <- try_get_context "monitoring_role_arn";;
  monitoring_role <- from_role_arn self "ImportedMonitoringRole" m;;
  b <- try_get_context "backup_role_arn";;
  backup_role <- from_role_arn self "ImportedBackupRole" b;;
  (* Create Aurora PostgreSQL cluster: the arguments first, in order *)
  instance_props <- rds_InstanceProps
    [ ("vpc", VConstruct vpc);
      ("vpc_subnets", VSubnetSelection
         {| ec2.selected_subnet_type := ec2.PRIVATE_WITH_EGRESS |});
      ("security_groups", VConstructs [db_security_group]);
      ("instance_type", VInstanceType (ec2.InstanceType_of ec2.T3 ec2.MEDIUM));
      ("monitoring_role", VConstruct monitoring_role) ];;
  parameter_group <- from_parameter_group_name self "ParameterGroup"
                       "default.aurora-postgresql16";;
  cluster <- rds_DatabaseCluster self "DatabaseCluster"
    [ ("engine", VEngine (rds.aurora_postgres rds.VER_16_1));
      ("credentials", VCredentials (rds.from_secret db_credentials));
      ("instance_props", VInstanceProps instance_props);
      ("instances", VNumber 1);
      ("backup", VBackupProps
         {| rds.retention := Duration.days 7;
            rds.preferred_window := "03:00-04:00" |});
      ("monitoring_interval", VDuration (Duration.seconds 60));
      ("parameter_group", VConstruct parameter_group);
      ("removal_policy", VRemovalPolicy SNAPSHOT);
      ("associated_roles", VConstructs [db_access_role; backup_role]) ];;
  (* Output the cluster endpoint *)
  new self "ClusterEndpoint" (COutput
    {| value := cluster_endpoint_hostname cluster;
       description := "Aurora PostgreSQL cluster endpoint" |});;;
  (* Output the secret ARN *)
  new self "SecretARN" (COutput
    {| value := secret_arn db_credentials;
       description := "Database credentials secret ARN" |});;;
  ret self.

(** ** stacks/iam_stack.py *)

Definition from_aws_managed_policy_name (managed_policy_name : string) : string :=
  managed_policy_name.

(** The [actions] list of the database-operations statement, as
    enumerated in the source. *)
Definition database_operations : list string :=
  [
    "rds-db:connect";
    "rds:DescribeDBInstances";
    "rds:DescribeDBClusters";
    "rds:ModifyDBInstance";
    "rds:ModifyDBCluster";
    "rds:StartDBInstance";
    "rds:StopDBInstance";
    "rds:RebootDBInstance";
    "rds:CreateDBInstance";
    "rds:DeleteDBInstance";
    "rds:CreateDBCluster";
    "rds:DeleteDBCluster";
    "rds:RestoreDBInstanceFromDBSnapshot";
    "rds:RestoreDBClusterFromSnapshot";
    "rds:CreateDBSnapshot";
    "rds:DeleteDBSnapshot";
    "rds:CopyDBSnapshot";
    "rds:CopyDBClusterSnapshot";
    "rds:DescribeDBSnapshots";
    "rds:DescribeDBClusterSnapshots";
    "rds:ModifyDBSnapshotAttribute";
    "rds:ModifyDBClusterSnapshotAttribute";
    "rds:RestoreDBInstanceToPointInTime";
    "rds:RestoreDBClusterToPointInTime";
    "rds:DescribeDBEngineVersions";
    "rds:DescribeOrderableDBInstanceOptions";
    "rds:DescribeDBParameters";
    "rds:DescribeDBClusterParameters";
    "rds:ModifyDBParameterGroup";
    "rds:ModifyDBClusterParameterGroup";
    "rds:DescribeEvents";
    "rds:DescribeEventSubscriptions";
    "rds:CreateEventSubscription";
    "rds:DeleteEventSubscription";
    "rds:ModifyEventSubscription";
    "rds:AddTagsToResource";
    "rds:RemoveTagsFromResource";
    "rds:ListTagsForResource";
    "rds:DescribeDBLogFiles";
    "rds:DownloadDBLogFilePortion";
    "rds:DescribeDBInstances";
    "rds:DescribeDBClusters";
    "rds:DescribeDBEngineVersions";
    "rds:DescribeDBParameterGroups";
    "rds:DescribeDBClusterParameterGroups";
    "rds:DescribeDBParameters";
    "rds:DescribeDBClusterParameters";
    "rds:DescribeOptionGroups";
    "rds:DescribeDBSubnetGroups";
    "rds:DescribeEventSubscriptions";
    "rds:DescribeEvents";
    "rds:DescribeOrderableDBInstanceOptions";
    "rds:DescribePendingMaintenanceActions";
    "rds:DescribeReservedDBInstances";
    "rds:DescribeReservedDBInstancesOfferings";
    "rds:DescribeSourceRegions";
    "rds:DescribeValidDBInstanceModifications";
    "rds:DescribeValidDBClusterModifications";
    "rds:DescribeDBClusterSnapshotAttributes";
    "rds:DescribeDBSnapshotAttributes";
    "rds:DescribeDBClusterEndpoints";
    "rds:DescribeDBClusterParameterGroups";
    "rds:DescribeDBClusterParameters";
    "rds:DescribeDBClusterSnapshots";
    "rds:DescribeDBClusters";
    "rds:DescribeDBInstances";
    "rds:DescribeDBParameterGroups";
    "rds:DescribeDBParameters";
    "rds:DescribeDBSnapshots";
    "rds:DescribeDBSubnetGroups";
    "rds:DescribeEventCategories";
    "rds:DescribeEventSubscriptions";
    "rds:DescribeEvents";
    "rds:DescribeOptionGroups";
    "rds:DescribeOrderableDBInstanceOptions";
    "rds:DescribePendingMaintenanceActions";
    "rds:DescribeReservedDBInstances";
    "rds:DescribeReservedDBInstancesOfferings";
    "rds:DescribeSourceRegions";
    "rds:DescribeValidDBInstanceModifications";
    "rds:DescribeValidDBClusterModifications";
    "rds:ListTagsForResource";
    "rds:ModifyDBCluster";
    "rds:ModifyDBClusterParameterGroup";
    "rds:ModifyDBClusterSnapshotAttribute";
    "rds:ModifyDBInstance";
    "rds:ModifyDBParameterGroup";
    "rds:ModifyDBSnapshotAttribute";
    "rds:ModifyEventSubscription";
    "rds:PromoteReadReplica";
    "rds:PromoteReadReplicaDBCluster";
    "rds:PurchaseReservedDBInstancesOffering";
    "rds:RebootDBInstance";
    "rds:RemoveTagsFromResource";
    "rds:ResetDBClusterParameterGroup";
    "rds:ResetDBParameterGroup";
    "rds:RestoreDBClusterFromSnapshot";
    "rds:RestoreDBClusterToPointInTime";
    "rds:RestoreDBInstanceFromDBSnapshot";
    "rds:RestoreDBInstanceToPointInTime";
    "rds:RevokeDBSecurityGroupIngress";
    "rds:StartDBCluster";
    "rds:StartDBInstance";
    "rds:StopDBCluster";
    "rds:StopDBInstance"
  ].

Definition IamStack (scope : Path) (construct_id : string)
    (env : Environment) : M Path :=
  self <- Stack scope construct_id env;;
  (* Create IAM role for database access *)
  db_access_role <- new self "DatabaseAccessRole" (CRole
    {| iam.assumed_by := {| iam.service := "rds.amazonaws.com" |};
       iam.description := "Role for database access and management";
       iam.managed_policies :=
         [ from_aws_managed_policy_name "service-role/AmazonRDSEnhancedMonitoringRole";
           from_aws_managed_policy_name "service-role/AmazonRDSDirectoryServiceAccess" ];
       iam.policy := [] |});;
  (* Add custom policy for database operations *)
  add_to_policy db_access_role
    (iam.PolicyStatement iam.ALLOW database_operations [Lit "*"]);;;
  (* Create IAM role for database monitoring *)
  monitoring_role <- new self "DatabaseMonitoringRole" (CRole
    {| iam.assumed_by := {| iam.service := "monitoring.rds.amazonaws.com" |};
       iam.description := "Role for database monitoring and metrics";
       iam.managed_policies :=
         [ from_aws_managed_policy_name "service-role/AmazonRDSEnhancedMonitoringRole" ];
       iam.policy := [] |});;
  (* Create IAM role for database backup *)
  backup_role <- new self "DatabaseBackupRole" (CRole
    {| iam.assumed_by := {| iam.service := "backup.amazonaws.com" |};
       iam.description := "Role for database backup operations";
       iam.managed_policies :=
         [ from_aws_managed_policy_name "service-role/AWSBackupServiceRolePolicyForBackup" ];
       iam.policy := [] |});;
  (* Output the role ARNs *)
  new self "DatabaseAccessRoleARN" (COutput
    {| value := role_arn db_access_role;
       description := "Database access role ARN" |});;;
  new self "DatabaseMonitoringRoleARN" (COutput
    {| value := role_arn monitoring_role;
       description := "Database monitoring role ARN" |});;;
  new self "DatabaseBackupRoleARN" (COutput
    {| value := role_arn backup_role;
       description := "Database backup role ARN" |});;;
  ret self.

(** ** stacks/container_stack.py *)

Definition ContainerStack (scope : Path) (construct_id : string)
    (env : Environment) : M Path :=
  self <- Stack scope construct_id env;;
  (* Create ECR repositories *)
  aaa_service_repo <- new self "AaaServiceRepository" (CRepository
    {| ecr.repository_name := "aaa-service";
       ecr.removal_policy := RETAIN;
       ecr.image_scan_on_push := true;
       ecr.lifecycle_rules :=
         [ {| ecr.max_image_count := 30;
              ecr.description := "Keep only the last 30 images" |} ] |});;
  spicedb_repo <- new self "SpiceDBRepository" (CRepository
    {| ecr.repository_name := "spicedb";
       ecr.removal_policy := RETAIN;
       ecr.image_scan_on_push := true;
       ecr.lifecycle_rules :=
         [ {| ecr.max_image_count := 10;
              ecr.description := "Keep only the last 10 images" |} ] |});;
  aadhaar_validation_repo <- new self "AadhaarValidationRepository" (CRepository
    {| ecr.repository_name := "aadhaar-validation-service";
       ecr.removal_policy := RETAIN;
       ecr.image_scan_on_push := true;
       ecr.lifecycle_rules :=
         [ {| ecr.max_image_count := 30;
              ecr.description := "Keep only the last 30 images" |} ] |});;
  (* Create IAM role for ECR access *)
  ecr_access_role <- new self "EcrAccessRole" (CRole
    {| iam.assumed_by := {| iam.service := "ecs-tasks.amazonaws.com" |};
       iam.description := "Role for ECR access from ECS tasks";
       iam.managed_policies := [];
       iam.policy := [] |});;
  (* Add ECR pull policy *)
  add_to_policy ecr_access_role
    (iam.PolicyStatement iam.ALLOW
       [ "ecr:GetDownloadUrlForLayer";
         "ecr:BatchGetImage";
         "ecr:BatchCheckLayerAvailability";
         "ecr:GetAuthorizationToken" ]
       [ repository_arn aaa_service_repo;
         repository_arn spicedb_repo;
         repository_arn aadhaar_validation_repo ]);;;
  (* Output repository URIs *)
  new self "AaaServiceRepositoryURI" (COutput
    {| value := repository_uri aaa_service_repo;
       description := "AAA Service ECR repository URI" |});;;
  new self "SpiceDBRepositoryURI" (COutput
    {| value := repository_uri spicedb_repo;
       description := "SpiceDB ECR repository URI" |});;;
  new self "AadhaarValidationRepositoryURI" (COutput
    {| value := repository_uri aadhaar_validation_repo;
       description := "Aadhaar Validation Service ECR repository URI" |});;;
  ret self.

(** ** app.py *)

(** What [app.synth()] hands to the provisioning engine: every declared
    node, in declaration order. *)
Abbreviation CloudAssembly := (list (Path * Construct)).

Definition synth : M CloudAssembly := λ t, inr (nodes t, t).

(** [App()]: an empty tree carrying the deploy-time context. *)
Definition App (ctx : gmap string string) : Tree :=
  {| context := ctx; nodes := [] |}.

Definition app : M CloudAssembly :=
  (* Create IAM stack first *)
  account1 <- try_get_context "account";;
  iam_stack <- IamStack [] "AaaServiceIamStack"
                 {| region := "ap-south-1"; account := account1 |};;
  (* Create database stack with IAM role references *)
  account2 <- try_get_context "account";;
  DatabaseStack [] "AaaServiceDatabaseStack"
    {| region := "ap-south-1"; account := account2 |};;;
  (* Create container stack *)
  account3 <- try_get_context "account";;
  ContainerStack [] "AaaServiceContainerStack"
    {| region := "ap-south-1"; account := account3 |};;;
  synth.

(** Running the script: either the exception that ends it, or the
    synthesized assembly. *)
Definition main (ctx : gmap string string) : Exn + CloudAssembly :=
  match app (App ctx) with
  | inl (e, _) => inl e
  | inr (assembly, _) => inr assembly
  end.

(** What reaches the provisioning engine after a run of the script: the
    assembly when it was synthesized, nothing when an exception ended the
    run before [app.synth()]. *)
Definition provisioned (r : Exn + CloudAssembly) : CloudAssembly :=
  match r with
  | inl _ => []
  | inr assembly => assembly
  end.

(** ** Reading a tree or an assembly *)

Definition clusters (asm : CloudAssembly) : list (Path * rds.DatabaseCluster) :=
  omap (λ n, match n.2 with CCluster c => Some (n.1, c) | _ => None end) asm.

Definition security_groups (asm : CloudAssembly) : list (Path * ec2.SecurityGroup) :=
  omap (λ n, match n.2 with CSecurityGroup g => Some (n.1, g) | _ => None end) asm.

Definition secrets (asm : CloudAssembly) : list (Path * secretsmanager.Secret) :=
  omap (λ n, match n.2 with CSecret x => Some (n.1, x) | _ => None end) asm.

Definition repositories (asm : CloudAssembly) : list (Path * ecr.Repository) :=
  omap (λ n, match n.2 with CRepository r => Some (n.1, r) | _ => None end) asm.

Definition roles (asm : CloudAssembly) : list (Path * iam.Role) :=
  omap (λ n, match n.2 with CRole r => Some (n.1, r) | _ => None end) asm.

Definition vpcs (asm : CloudAssembly) : list (Path * ec2.Vpc) :=
  omap (λ n, match n.2 with CVpc v => Some (n.1, v) | _ => None end) asm.

Definition stacks (asm : CloudAssembly) : list (Path * Environment) :=
  omap (λ n, match n.2 with CStack env => Some (n.1, env) | _ => None end) asm.

Definition outputs (asm : CloudAssembly) : list (Path * CfnOutput) :=
  omap (λ n, match n.2 with COutput o => Some (n.1, o) | _ => None end) asm.

(** The roles imported by ARN, with their identifiers, in declaration
    order. *)
Definition imported_roles (asm : CloudAssembly) : list (Path * string) :=
  omap (λ n, match n.2 with CImportedRole arn => Some (n.1, arn) | _ => None end) asm.

Definition imported_role_arns (asm : CloudAssembly) : list string :=
  (imported_roles asm).*2.

(** Every inline statement, with the role carrying it. *)
Definition statements (asm : CloudAssembly) : list (Path * iam.Statement) :=
  flat_map (λ r, (λ st, (r.1, st)) <$> iam.policy r.2) (roles asm).

(** The nodes of one stack. *)
Definition stack_of (p : Path) : string := hd "" p.

Definition in_stack (stack : string) (asm : CloudAssembly) : CloudAssembly :=
  List.filter (λ n, String.eqb (stack_of n.1) stack) asm.

(** The value a deploy-time string takes once the engine knows the
    attributes of the declared nodes. *)
Definition resolve (ρ : Path → string → string) (s : tstring) : string :=
  match s with
  | Lit s => s
  | Attr node attribute => ρ node attribute
  end.

(** The retention cap of a repository: the image counts of its lifecycle
    rules. *)
Definition retention_caps (r : ecr.Repository) : list N :=
  map ecr.max_image_count (ecr.lifecycle_rules r).

(** What becomes of a resource's data when its declaration is deleted. *)
Inductive Fate := Deleted | Retained | FinalSnapshot.

(** Modelled from the spec: the provisioning engine, not under src/, owns
    teardown.  Glossary, removal policy: what happens to a resource's
    underlying data when its declaration is deleted (retain / snapshot /
    delete). *)
Definition on_delete (p : RemovalPolicy) : Fate :=
  match p with
  | DESTROY => Deleted
  | RETAIN | RETAIN_ON_UPDATE_OR_DELETE => Retained
  | SNAPSHOT => FinalSnapshot
  end.

(** A flat JSON object of strings, spelled as the secret template spells
    it. *)
Fixpoint json_members (l : list (string * string)) : string :=
  match l with
  | [] => ""
  | [(k, v)] => q k +:+ ": " +:+ q v
  | (k, v) :: l' => q k +:+ ": " +:+ q v +:+ ", " +:+ json_members l'
  end.

Definition json_object (l : list (string * string)) : string :=
  "{" +:+ json_members l +:+ "}".

(** The characters of a Python string. *)
Definition chars (s : string) : list ascii := list_ascii_of_string s.

(** ECR actions that push, write or delete: named by their verb, or
    granted wholesale by a wildcard. *)
Definition write_verbs : list string :=
  [ "Put"; "Upload"; "Initiate"; "Complete"; "Create"; "Delete";
    "BatchDelete"; "Set"; "Start"; "Tag"; "Untag"; "Update"; "Replicate" ].

Definition is_write_action (action : string) : bool :=
  String.eqb action "*" || String.eqb action "ecr:*" ||
  existsb (λ verb, String.prefix ("ecr:" +:+ verb) action) write_verbs.

(** ** References between declarations *)

Inductive Kind :=
| KStack | KVpc | KSecurityGroup | KSecret | KRole | KParameterGroup
| KCluster | KRepository | KOutput.

Global Instance Kind_eq_dec : EqDecision Kind.
Proof. solve_decision. Defined.

(** Owned and imported roles are both role objects to their holders. *)
Definition kind (c : Construct) : Kind :=
  match c with
  | CStack _ => KStack
  | CVpc _ => KVpc
  | CSecurityGroup _ => KSecurityGroup
  | CSecret _ => KSecret
  | CRole _ | CImportedRole _ => KRole
  | CImportedParameterGroup _ => KParameterGroup
  | CCluster _ => KCluster
  | CRepository _ => KRepository
  | COutput _ => KOutput
  end.

(** The kinds of object the stacks read each attribute from:
    [vpc.vpc_cidr_block], [role.role_arn], [secret.secret_arn],
    [repo.repository_arn], [repo.repository_uri],
    [cluster.cluster_endpoint.hostname]. *)
Definition offering (attribute : string) : list Kind :=
  if String.eqb attribute "CidrBlock" then [KVpc]
  else if String.eqb attribute "Arn" then [KRole; KSecret; KRepository]
  else if String.eqb attribute "RepositoryUri" then [KRepository]
  else if String.eqb attribute "Endpoint.Address" then [KCluster]
  else [].

Definition token_reference (s : tstring) : list (Path * list Kind) :=
  match s with
  | Lit _ => []
  | Attr node attribute => [(node, offering attribute)]
  end.

(** The objects a declaration holds, each with the kinds its holder
    accepts there. *)
Definition typed_references (c : Construct) : list (Path * list Kind) :=
  match c with
  | CSecurityGroup g =>
      (ec2.vpc g, [KVpc]) ::
      flat_map (λ r, token_reference (ec2.cidr (ec2.peer r))) (ec2.ingress_rules g)
  | CRole r =>
      flat_map (λ st, flat_map token_reference (iam.resources st)) (iam.policy r)
  | CCluster c =>
      from_option (λ cr, [(rds.secret cr, [KSecret])]) [] (rds.credentials c) ++
      from_option
        (λ ip, (rds.vpc ip, [KVpc]) ::
               ((λ sg, (sg, [KSecurityGroup])) <$>
                  default [] (rds.security_groups ip)))
        [] (rds.instance_props c) ++
      from_option (λ pg, [(pg, [KParameterGroup])]) [] (rds.parameter_group c)
  | COutput o => token_reference (value o)
  | CStack _ | CVpc _ | CSecret _ | CImportedRole _
  | CImportedParameterGroup _ | CRepository _ => []
  end%list.

Definition references (c : Construct) : list Path := (typed_references c).*1.

(** No dangling reference, declaration before use, and no reference out
    of the holder's stack: every object a node holds is declared earlier,
    is of a kind the holder accepts, and lies in the holder's stack. *)
Definition well_referenced (asm : CloudAssembly) : Prop :=
  ∀ i n, asm !! i = Some n →
    Forall (λ ref, kind <$> lookup_node ref.1 (take i asm) ∈ Some <$> ref.2)
           (typed_references n.2) ∧
    Forall (λ r, stack_of r = stack_of n.1) (references n.2).

(** ** Trees as stacks find them *)

(** The tree [t] with the nodes [added] declared after its own. *)
Definition extends (t : Tree) (added : list (Path * Construct)) : Tree :=
  {| context := context t; nodes := (nodes t ++ added)%list |}.

(** No node of [t] lies at or below [scope]. *)
Definition fresh (scope : Path) (t : Tree) : Prop :=
  Forall (λ n, ¬ scope `prefix_of` n.1) (nodes t).

(** The environment [app.py] gives every stack. *)
Definition deployment_env (ctx : gmap string string) : Environment :=
  {| region := "ap-south-1"; account := ctx !! "account" |}.

(** A context supplying the account and the three role identifiers. *)
Definition access_arn : string := "arn:aws:iam::123456789012:role/access".
Definition monitoring_arn : string := "arn:aws:iam::123456789012:role/monitoring".
Definition backup_arn : string := "arn:aws:iam::123456789012:role/backup".

Definition example_context : gmap string string :=
  <["database_access_role_arn" := access_arn]>
  (<["monitoring_role_arn" := monitoring_arn]>
  (<["backup_role_arn" := backup_arn]>
  (<["account" := "123456789012"]> ∅))).

(** The same context without the backup role identifier. *)
Definition incomplete_context : gmap string string :=
  delete "backup_role_arn" example_context.

(** A tree already holding a stack of another team. *)
Definition occupied_tree : Tree :=
  {| context := example_context;
     nodes := [ (["Shared"], CStack {| region := "ap-south-1"; account := None |});
                (["Shared"; "Secret"], CSecret
                   {| secretsmanager.generate_secret_string :=
                        {| secretsmanager.secret_string_template := "{}";
                           secretsmanager.generate_string_key := "token";
                           secretsmanager.exclude_characters := "" |} |}) ] |}.

(** ** The store: objects are shared, mutation is seen through every path *)

Lemma path_eqb_eq (p q : Path) : path_eqb p q = true ↔ p = q.
Proof.
  revert q. induction p as [|x p IH]; intros [|y q]; simpl; try done.
  rewrite andb_true_iff, String.eqb_eq, IH.
  split; [intros [-> ->] | intros [= -> ->]]; done.
Qed.

Lemma path_eqb_refl (p : Path) : path_eqb p p = true.
Proof. by apply path_eqb_eq. Qed.

Lemma path_eqb_neq (p q : Path) : p ≠ q → path_eqb p q = false.
Proof.
  intros Hne. destruct (path_eqb p q) eqn:E; [|done].
  by apply path_eqb_eq in E.
Qed.

(** Mutating a node neither adds nor removes a declaration. *)
Lemma update_node_paths p c (l : list (Path * Construct)) :
  (update_node p c l).*1 = l.*1.
Proof.
  induction l as [|[q' c'] l IH]; csimpl; [done|].
  destruct (path_eqb q' p); csimpl; [done|]. by rewrite IH.
Qed.

(** A mutated node is what every holder of its path reads afterwards. *)
Lemma lookup_update_node p c c' (l : list (Path * Construct)) :
  lookup_node p l = Some c →
  lookup_node p (update_node p c' l) = Some c'.
Proof.
  induction l as [|[q' d] l IH]; simpl; [done|].
  destruct (path_eqb q' p) eqn:E; simpl; rewrite E; [done|]. apply IH.
Qed.

(** The other nodes are untouched. *)
Lemma lookup_update_node_ne p p' c' (l : list (Path * Construct)) :
  p ≠ p' →
  lookup_node p' (update_node p c' l) = lookup_node p' l.
Proof.
  intros Hne. induction l as [|[q' d] l IH]; simpl; [done|].
  destruct (path_eqb q' p) eqn:E; simpl.
  - apply path_eqb_eq in E as ->. by rewrite path_eqb_neq.
  - by rewrite IH.
Qed.

(** [add_ingress_rule] on a declared security group appends the rule to
    that group and leaves the context alone. *)
Lemma add_ingress_rule_spec sg g peer connection description (t : Tree) :
  lookup_node sg (nodes t) = Some (CSecurityGroup g) →
  ∃ t',
    add_ingress_rule sg peer connection description t = inr (tt, t') ∧
    context t' = context t ∧
    (nodes t').*1 = (nodes t).*1 ∧
    ∃ g',
      lookup_node sg (nodes t') = Some (CSecurityGroup g') ∧
      ec2.ingress_rules g'
        = (ec2.ingress_rules g ++
           [{| ec2.peer := peer; ec2.connection := connection;
               ec2.rule_description := description |}])%list.
Proof.
  intros Hsg. unfold add_ingress_rule, bind, get, put. rewrite Hsg.
  eexists. split; [reflexivity|]. simpl.
  split; [done|]. split; [apply update_node_paths|].
  eexists. split; [by eapply lookup_update_node|done].
Qed.

(** Reading the context never fails and never changes the tree. *)
Lemma try_get_context_spec key (t : Tree) :
  try_get_context key t = inr (context t !! key, t).
Proof. reflexivity. Qed.

(** ** Paths below a scope *)

Lemma path_eqb_below (s : Path) x k : path_eqb s (s ++ x :: k)%list = false.
Proof. induction s as [|y s IH]; simpl; [done|]. by rewrite String.eqb_refl. Qed.

Lemma path_eqb_child_parent (s : Path) x : path_eqb s (child s x) = false.
Proof. apply path_eqb_below. Qed.

Lemma path_eqb_child (s : Path) x y :
  path_eqb (child s x) (child s y) = String.eqb x y.
Proof.
  unfold child. induction s as [|z s IH]; simpl.
  - by rewrite andb_true_r.
  - by rewrite String.eqb_refl.
Qed.

Lemma child_below (s : Path) x : s `prefix_of` child s x.
Proof. by exists [x]. Qed.

Global Instance child_inj (s : Path) : Inj (=) (=) (child s).
Proof. intros x y H. unfold child in H. by apply app_inj_tail in H as [_ ->]. Qed.

Global Instance repository_arn_inj : Inj (=) (=) repository_arn.
Proof. by intros p p' [= ->]. Qed.

(** A path below a fresh scope addresses nothing yet. *)
Lemma lookup_node_fresh scope p (t : Tree) :
  fresh scope t → scope `prefix_of` p → lookup_node p (nodes t) = None.
Proof.
  unfold fresh. intros Hl Hp.
  induction Hl as [|[q' c] l Hq _ IH]; simpl; [done|].
  rewrite path_eqb_neq; [done|]. intros ->. by apply Hq.
Qed.

Lemma lookup_node_app p (l1 l2 : list (Path * Construct)) :
  lookup_node p l1 = None →
  lookup_node p (l1 ++ l2)%list = lookup_node p l2.
Proof.
  induction l1 as [|[q' c] l1 IH]; simpl; [done|].
  destruct (path_eqb q' p); [done|]. apply IH.
Qed.

Lemma update_node_app p c (l1 l2 : list (Path * Construct)) :
  lookup_node p l1 = None →
  update_node p c (l1 ++ l2)%list = (l1 ++ update_node p c l2)%list.
Proof.
  induction l1 as [|[q' d] l1 IH]; simpl; [done|].
  destruct (path_eqb q' p); [done|]. intros H. by rewrite IH.
Qed.

Lemma fresh_App scope ctx : fresh scope (App ctx).
Proof. constructor. Qed.

(** ** Running the script *)

Arguments bind {_ _} _ _ _ /.
Arguments ret {_} _ _ /.
Arguments raise {_} _ _ /.
Arguments try_get_context _ _ /.
Arguments new _ _ _ _ /.
Arguments get _ _ /.
Arguments put _ _ _ /.
Arguments add_ingress_rule _ _ _ _ _ /.
Arguments add_to_policy _ _ _ /.
Arguments from_role_arn _ _ _ _ /.
Arguments from_parameter_group_name _ _ _ _ /.
Arguments optional {_} _ _ _ _ /.
Arguments required {_} _ _ _ _ /.
Arguments rds_InstanceProps _ _ /.
Arguments rds_DatabaseCluster _ _ _ _ /.
Arguments Stack _ _ _ _ /.
Arguments synth _ /.
Arguments IamStack _ _ _ _ /.
Arguments DatabaseStack _ _ _ _ /.
Arguments ContainerStack _ _ _ _ /.
Arguments app _ /.
Arguments iam.PolicyStatement : simpl never.

Ltac evaluated := vm_compute; first [reflexivity | discriminate].

Ltac decided := apply (bool_decide_unpack _); vm_compute; reflexivity.

(** Runs a stack constructor on a tree whose nodes are only known to lie
    outside its scope. *)
Ltac locate Hf :=
  rewrite ?(lookup_node_fresh _ _ _ Hf) by (apply child_below || reflexivity);
  rewrite ?lookup_node_app, ?update_node_app
    by (eapply lookup_node_fresh; [exact Hf | apply child_below || reflexivity]).

Ltac run_stack Hf :=
  cbn [bind new get put ret raise context nodes try_get_context
       from_role_arn from_parameter_group_name];
  rewrite <- ?app_assoc;
  repeat (progress (locate Hf; simpl;
                    rewrite ?path_eqb_child_parent, ?path_eqb_refl, ?path_eqb_child;
                    simpl; rewrite <- ?app_assoc)).

(** ** What each stack builds *)

Lemma IamStack_adds scope id env :
  ∃ added,
    added.*1 = child scope id ::
               (child (child scope id) <$>
                 [ "DatabaseAccessRole"; "DatabaseMonitoringRole";
                   "DatabaseBackupRole"; "DatabaseAccessRoleARN";
                   "DatabaseMonitoringRoleARN"; "DatabaseBackupRoleARN" ]) ∧
    kind <$> added.*2
      = [KStack; KRole; KRole; KRole; KOutput; KOutput; KOutput] ∧
    (roles added).*1
      = child (child scope id) <$>
          [ "DatabaseAccessRole"; "DatabaseMonitoringRole";
            "DatabaseBackupRole" ] ∧
    (λ r, length (iam.policy r.2)) <$> roles added = [1; 0; 0] ∧
    (λ o, value o.2) <$> outputs added = role_arn <$> (roles added).*1 ∧
    (∃ r st,
        roles added !! 0 = Some (child (child scope id) "DatabaseAccessRole", r) ∧
        length (iam.managed_policies r) = 2 ∧
        iam.policy r = [st] ∧
        iam.effect st = iam.ALLOW ∧
        iam.resources st = [Lit "*"] ∧
        [ "rds:CreateDBCluster"; "rds:DeleteDBInstance"; "rds:CreateDBSnapshot";
          "rds:ModifyDBParameterGroup"; "rds:DescribeDBClusters" ]
          ⊆ iam.actions st ∧
        NoDup (iam.actions st) ∧
        length (iam.actions st) = 62 ∧
        iam.actions st ⊆ database_operations ∧
        database_operations ⊆ iam.actions st ∧
        Forall (λ x, (1 ≤ count_occ string_dec database_operations x ≤ 3)%nat)
               (iam.actions st)) ∧
    ((λ r, iam.service (iam.assumed_by r.2)) <$> roles added
       = [ "rds.amazonaws.com"; "monitoring.rds.amazonaws.com";
           "backup.amazonaws.com" ] ∧
     (statements added).*1 = [child (child scope id) "DatabaseAccessRole"] ∧
     Forall (λ s, iam.effect s.2 = iam.ALLOW ∧ Lit "*" ∈ iam.resources s.2)
            (statements added) ∧
     Forall (λ r, iam.policy r.2 = [] → iam.managed_policies r.2 ≠ [])
            (roles added)) ∧
    ∀ t, fresh (child scope id) t →
         IamStack scope id env t = inr (child scope id, extends t added).
Proof.
  eexists. split_and!; cycle 10.
  - intros t Hf. unfold IamStack, Stack, add_to_policy.
    run_stack Hf. reflexivity.
  - reflexivity.
  - reflexivity.
  - reflexivity.
  - reflexivity.
  - reflexivity.
  - eexists _, _. split; [reflexivity|].
    do 4 (split; [evaluated|]).
    split; [decided|]. split; [decided|]. split; [evaluated|].
    split; [decided|]. split; decided.
  - reflexivity.
  - reflexivity.
  - repeat constructor.
  - repeat constructor; simpl; (discriminate || intros _; discriminate).
Qed.

Lemma ContainerStack_adds scope id env :
  ∃ added,
    added.*1 = child scope id ::
               (child (child scope id) <$>
                 [ "AaaServiceRepository"; "SpiceDBRepository";
                   "AadhaarValidationRepository"; "EcrAccessRole";
                   "AaaServiceRepositoryURI"; "SpiceDBRepositoryURI";
                   "AadhaarValidationRepositoryURI" ]) ∧
    kind <$> added.*2
      = [ KStack; KRepository; KRepository; KRepository; KRole;
          KOutput; KOutput; KOutput ] ∧
    (∃ r st,
        (repositories added).*1
          = child (child scope id) <$>
              [ "AaaServiceRepository"; "SpiceDBRepository";
                "AadhaarValidationRepository" ] ∧
        roles added = [(child (child scope id) "EcrAccessRole", r)] ∧
        iam.policy r = [st] ∧
        iam.resources st = repository_arn <$> (repositories added).*1 ∧
        (λ o, value o.2) <$> outputs added
          = repository_uri <$> (repositories added).*1 ∧
        iam.managed_policies r = [] ∧
        iam.service (iam.assumed_by r) = "ecs-tasks.amazonaws.com" ∧
        iam.effect st = iam.ALLOW ∧
        iam.actions st
          = [ "ecr:GetDownloadUrlForLayer"; "ecr:BatchGetImage";
              "ecr:BatchCheckLayerAvailability"; "ecr:GetAuthorizationToken" ] ∧
        Forall (λ x, is_write_action x = false) (iam.actions st)) ∧
    (map (λ x, ecr.repository_name x.2) (repositories added)
       = ["aaa-service"; "spicedb"; "aadhaar-validation-service"] ∧
     map (λ x, retention_caps x.2) (repositories added)
       = [[30]; [10]; [30]]%N ∧
     Forall (λ x, ecr.image_scan_on_push x.2 = true) (repositories added) ∧
     Forall (λ x, retention_caps x.2 ≠ [] ∧
                  Forall (λ cap, (0 < cap)%N) (retention_caps x.2))
            (repositories added) ∧
     Forall (λ x, ecr.removal_policy x.2 = RETAIN ∧
                  on_delete (ecr.removal_policy x.2) = Retained)
            (repositories added)) ∧
    ∀ t, fresh (child scope id) t →
         ContainerStack scope id env t = inr (child scope id, extends t added).
Proof.
  eexists. split_and!; cycle 8.
  - intros t Hf. unfold ContainerStack, Stack, add_to_policy.
    run_stack Hf. reflexivity.
  - reflexivity.
  - reflexivity.
  - eexists _, _. split_and!; try reflexivity.
    + unfold iam.PolicyStatement, ordered_set.
      repeat (progress (simpl; rewrite ?path_eqb_child)). reflexivity.
    + vm_compute. repeat constructor.
  - reflexivity.
  - reflexivity.
  - vm_compute. repeat constructor.
  - vm_compute. repeat constructor; discriminate.
  - vm_compute. repeat constructor.
Qed.

Ltac database_case known :=
  eexists _, _; split_and!; cycle 7;
  [ intros t Hf <-; unfold DatabaseStack, Stack, add_ingress_rule;
    repeat (progress (run_stack Hf; known));
    reflexivity
  | reflexivity
  | reflexivity
  | reflexivity
  | reflexivity
  | reflexivity
  | repeat constructor; discriminate
  | eexists _, _, _, _; split_and!;
    first [ reflexivity
          | decided
          | vm_compute; repeat constructor ] ].

Lemma DatabaseStack_builds scope id env (ctx : gmap string string) :
  ∃ e built,
    built.*1 = child scope id ::
               (child (child scope id) <$>
                 ([ "DatabaseVPC"; "DatabaseSecurityGroup";
                    "DatabaseCredentials" ] ++
                  take (length (imported_roles built))
                    [ "ImportedDatabaseAccessRole"; "ImportedMonitoringRole";
                      "ImportedBackupRole" ])%list) ∧
    match ctx !! "database_access_role_arn",
          ctx !! "monitoring_role_arn",
          ctx !! "backup_role_arn" with
    | Some a, Some m, Some b =>
        (e, imported_role_arns built) = (TypeError "monitoring_role", [a; m; b])
    | Some a, Some m, None =>
        (e, imported_role_arns built) = (TypeError "role_arn", [a; m])
    | Some a, None, _ =>
        (e, imported_role_arns built) = (TypeError "role_arn", [a])
    | None, _, _ =>
        (e, imported_role_arns built) = (TypeError "role_arn", [])
    end ∧
    clusters built = [] ∧
    outputs built = [] ∧
    roles built = [] ∧
    Forall (λ n, kind n.2 ≠ KParameterGroup) built ∧
    (∃ v g r s,
        vpcs built = [(child (child scope id) "DatabaseVPC", v)] ∧
        security_groups built
          = [(child (child scope id) "DatabaseSecurityGroup", g)] ∧
        secrets built = [(child (child scope id) "DatabaseCredentials", s)] ∧
        ec2.vpc g = child (child scope id) "DatabaseVPC" ∧
        ec2.allow_all_outbound g = true ∧
        ec2.ingress_rules g = [r] ∧
        ec2.connection r = ec2.tcp 5432 ∧
        ec2.peer r
          = ec2.ipv4 (vpc_cidr_block (child (child scope id) "DatabaseVPC")) ∧
        ec2.max_azs v = 2%N ∧
        ec2.nat_gateways v = 1%N ∧
        NoDup (ec2.name <$> ec2.subnet_configuration v) ∧
        Forall (λ sc, ec2.cidr_mask sc = 24%N) (ec2.subnet_configuration v) ∧
        ec2.subnet_type <$> ec2.subnet_configuration v
          = [ec2.PUBLIC; ec2.PRIVATE_WITH_EGRESS] ∧
        secretsmanager.secret_string_template
          (secretsmanager.generate_secret_string s)
          = json_object [("username", "aaa_user")] ∧
        secretsmanager.generate_string_key
          (secretsmanager.generate_secret_string s) = "password" ∧
        chars (secretsmanager.exclude_characters
                 (secretsmanager.generate_secret_string s))
          = [dquote; "@"; "/"; backslash]%char ∧
        NoDup (chars (secretsmanager.exclude_characters
                        (secretsmanager.generate_secret_string s)))) ∧
    ∀ t, fresh (child scope id) t → context t = ctx →
         DatabaseStack scope id env t = inl (e, extends t built).
Proof.
  destruct (ctx !! "database_access_role_arn") as [a|] eqn:Ha;
    [destruct (ctx !! "monitoring_role_arn") as [m|] eqn:Hm;
      [destruct (ctx !! "backup_role_arn") as [b|] eqn:Hb|]|].
  - database_case ltac:(rewrite ?Ha, ?Hm, ?Hb).
  - database_case ltac:(rewrite ?Ha, ?Hm, ?Hb).
  - database_case ltac:(rewrite ?Ha, ?Hm).
  - database_case ltac:(rewrite ?Ha).
Qed.

Lemma Forall_indexed {A} (P : nat → A → Prop) (l : list A) :
  Forall (λ x, P x.1 x.2) (imap pair l) →
  ∀ i x, l !! i = Some x → P i x.
Proof.
  intros H i x Hi. rewrite Forall_lookup in H.
  apply (H i (i, x)). by rewrite list_lookup_imap, Hi.
Qed.

Lemma well_referenced_decide (asm : CloudAssembly) :
  Forall (λ x,
    Forall (λ ref, kind <$> lookup_node ref.1 (take x.1 asm) ∈ Some <$> ref.2)
           (typed_references x.2.2) ∧
    Forall (λ r, stack_of r = stack_of x.2.1) (references x.2.2))
    (imap pair asm) →
  well_referenced asm.
Proof.
  intros H i n Hi.
  apply (Forall_indexed
           (λ i n,
              Forall (λ ref, kind <$> lookup_node ref.1 (take i asm)
                               ∈ Some <$> ref.2) (typed_references n.2) ∧
              Forall (λ r, stack_of r = stack_of n.1) (references n.2))
           asm H i n Hi).
Qed.

(** ** The Data-Tier stack *)

(** C1: wherever [DatabaseStack] is instantiated, the tree it has built
    when its constructor ends holds one security group, in the stack's
    VPC, with a single ingress rule: TCP port 5432 only, from the address
    block of that VPC, whatever the block resolves to, and not from
    0.0.0.0/0; no security group of the stack has a rule open to the
    whole internet. *)
Theorem db_ingress_only_from_vpc scope id env (t : Tree) :
  fresh (child scope id) t →
  ∃ e built v g r,
    DatabaseStack scope id env t = inl (e, extends t built) ∧
    vpcs built = [(child (child scope id) "DatabaseVPC", v)] ∧
    security_groups built
      = [(child (child scope id) "DatabaseSecurityGroup", g)] ∧
    ec2.vpc g = child (child scope id) "DatabaseVPC" ∧
    ec2.ingress_rules g = [r] ∧
    ec2.connection r = ec2.tcp 5432 ∧
    ec2.peer r
      = ec2.ipv4 (vpc_cidr_block (child (child scope id) "DatabaseVPC")) ∧
    (∀ ρ, resolve ρ (ec2.cidr (ec2.peer r))
          = ρ (child (child scope id) "DatabaseVPC") "CidrBlock") ∧
    ec2.peer r ≠ ec2.any_ipv4 ∧
    Forall (λ g', Forall (λ r', ec2.peer r' ≠ ec2.any_ipv4)
                         (ec2.ingress_rules g'.2))
           (security_groups built).
Proof.
  intros Hf.
  destruct (DatabaseStack_builds scope id env (context t))
    as (e & built & _ & _ & _ & _ & _ & _ & (v & g & r & s & Hshape) & Hrun).
  destruct Hshape as (Hv & Hg & _ & Hgv & _ & Hrules & Hport & Hpeer & _).
  exists e, built, v, g, r. split; [by apply Hrun|].
  split_and!; try done.
  - intros ρ. by rewrite Hpeer.
  - by rewrite Hpeer.
  - rewrite Hg. repeat constructor. simpl. rewrite Hrules.
    repeat constructor. by rewrite Hpeer.
Qed.

(** C2, as the code has it: the one secret [DatabaseStack] declares has
    the template [{"username": "aaa_user"}], generates the key [password],
    and excludes exactly four characters: double quote, at sign, slash and
    backslash. *)
Theorem credential_secret_shape scope id env (t : Tree) :
  fresh (child scope id) t →
  ∃ e built s,
    DatabaseStack scope id env t = inl (e, extends t built) ∧
    secrets built = [(child (child scope id) "DatabaseCredentials", s)] ∧
    let g := secretsmanager.generate_secret_string s in
    secretsmanager.secret_string_template g
      = json_object [("username", "aaa_user")] ∧
    secretsmanager.generate_string_key g = "password" ∧
    chars (secretsmanager.exclude_characters g)
      = [dquote; "@"; "/"; backslash]%char ∧
    NoDup (chars (secretsmanager.exclude_characters g)).
Proof.
  intros Hf.
  destruct (DatabaseStack_builds scope id env (context t))
    as (e & built & _ & _ & _ & _ & _ & _ & (v & g & r & s & Hshape) & Hrun).
  destruct Hshape
    as (_ & _ & Hs & _ & _ & _ & _ & _ & _ & _ & _ & _ & _ & Ht & Hk & Hc & Hn).
  exists e, built, s. split; [by apply Hrun|]. by split_and!.
Qed.

(** C3, what the code does: with the three identifiers in the context,
    [DatabaseStack] raises at [rds.InstanceProps], which is passed the
    keyword [monitoring_role] it does not declare; no cluster has been
    declared by then, so no removal policy applies to any. *)
Theorem DatabaseStack_declares_no_cluster :
  ∃ t',
    DatabaseStack [] "AaaServiceDatabaseStack" (deployment_env example_context)
      (App example_context)
      = inl (TypeError "monitoring_role", t') ∧
    clusters (nodes t') = [] ∧
    Forall (λ n, kind n.2 ≠ KCluster) (nodes t') ∧
    imported_role_arns (nodes t') = [access_arn; monitoring_arn; backup_arn].
Proof.
  eexists. split; [vm_compute; reflexivity|].
  split; [evaluated|]. split; [decided | evaluated].
Qed.

(** C6, what the code does: on a context with the three identifiers the
    script ends with the [TypeError] of [rds.InstanceProps]; the tree then
    holds the VPC, the security group, the secret and the three imported
    roles of the Data-Tier stack, but no parameter group and no cluster;
    the cluster call itself carries a second keyword the SDK does not
    declare, [associated_roles]. *)
Theorem script_raises_at_instance_props :
  main example_context = inl (TypeError "monitoring_role") ∧
  provisioned (main example_context) = [] ∧
  (∃ t',
      app (App example_context) = inl (TypeError "monitoring_role", t') ∧
      kind <$> (in_stack "AaaServiceDatabaseStack" (nodes t')).*2
        = [KStack; KVpc; KSecurityGroup; KSecret; KRole; KRole; KRole] ∧
      clusters (nodes t') = []) ∧
  existsb (String.eqb "monitoring_role") InstanceProps_keywords = false ∧
  existsb (String.eqb "associated_roles") DatabaseCluster_keywords = false.
Proof.
  split; [evaluated|]. split; [evaluated|].
  split; [|split; evaluated].
  eexists. split; [vm_compute; reflexivity|]. split; evaluated.
Qed.

(** What the code attempts: the same two calls, without the two keywords
    the SDK does not declare, return and declare a single-instance cluster
    with seven days of backup retention and removal policy SNAPSHOT. *)
Example cluster_calls_with_declared_keywords :
  ∃ instance_props t' c,
    rds_InstanceProps
      [ ("vpc", VConstruct ["S"; "DatabaseVPC"]);
        ("vpc_subnets", VSubnetSelection
           {| ec2.selected_subnet_type := ec2.PRIVATE_WITH_EGRESS |});
        ("security_groups", VConstructs [["S"; "DatabaseSecurityGroup"]]);
        ("instance_type", VInstanceType (ec2.InstanceType_of ec2.T3 ec2.MEDIUM)) ]
      (App ∅) = inr (instance_props, App ∅) ∧
    rds_DatabaseCluster ["S"] "DatabaseCluster"
      [ ("engine", VEngine (rds.aurora_postgres rds.VER_16_1));
        ("credentials", VCredentials (rds.from_secret ["S"; "DatabaseCredentials"]));
        ("instance_props", VInstanceProps instance_props);
        ("instances", VNumber 1);
        ("backup", VBackupProps
           {| rds.retention := Duration.days 7;
              rds.preferred_window := "03:00-04:00" |});
        ("monitoring_interval", VDuration (Duration.seconds 60));
        ("parameter_group", VConstruct ["S"; "ParameterGroup"]);
        ("removal_policy", VRemovalPolicy SNAPSHOT) ]
      (App ∅) = inr (["S"; "DatabaseCluster"], t') ∧
    clusters (nodes t') = [(["S"; "DatabaseCluster"], c)] ∧
    rds.instances c = Some 1%N ∧
    Duration.to_days <$> (rds.retention <$> rds.backup c) = Some 7%N ∧
    rds.removal_policy c = Some SNAPSHOT ∧
    on_delete <$> rds.removal_policy c = Some FinalSnapshot.
Proof.
  eexists _, _, _. split; [vm_compute; reflexivity|].
  split; [vm_compute; reflexivity|]. split; [evaluated|]. split_and!; evaluated.
Qed.

(** C2, as stated, fails: the excluded characters are four, so no choice of
    three characters makes up the excluded set. *)
Lemma excluded_characters_are_not_three :
  ∃ e t' ps s,
    DatabaseStack [] "AaaServiceDatabaseStack" (deployment_env example_context)
      (App example_context) = inl (e, t') ∧
    secrets (nodes t') = [(ps, s)] ∧
    ¬ ∃ c1 c2 c3 : ascii,
        ∀ x, x ∈ chars (secretsmanager.exclude_characters
                          (secretsmanager.generate_secret_string s))
             ↔ x ∈ [c1; c2; c3].
Proof.
  eexists _, _, _, _. split; [vm_compute; reflexivity|].
  split; [evaluated|].
  intros (c1 & c2 & c3 & H).
  assert (H1 : dquote ∈ [c1; c2; c3]) by (apply H; decided).
  assert (H2 : "@"%char ∈ [c1; c2; c3]) by (apply H; decided).
  assert (H3 : "/"%char ∈ [c1; c2; c3]) by (apply H; decided).
  assert (H4 : backslash ∈ [c1; c2; c3]) by (apply H; decided).
  unfold dquote, backslash in *.
  rewrite !elem_of_cons, !elem_of_nil in H1, H2, H3, H4.
  intuition congruence.
Qed.


(** The script ends in an exception on a context lacking one identifier. *)
Example main_incomplete_context :
  main incomplete_context = inl (TypeError "role_arn").
Proof. vm_compute. reflexivity. Qed.

(** ** The Container-Registry stack *)

(** C4: wherever [ContainerStack] is instantiated, the single policy
    statement of the registry-pull role lists three resources, the ARNs of
    the three repositories the stack declares, in declaration order;
    they are pairwise different and the wildcard is not among them. *)
Theorem pull_role_resources_are_the_repositories scope id env (t : Tree) :
  fresh (child scope id) t →
  ∃ added r st,
    ContainerStack scope id env t = inr (child scope id, extends t added) ∧
    roles added = [(child (child scope id) "EcrAccessRole", r)] ∧
    iam.policy r = [st] ∧
    iam.resources st = repository_arn <$> (repositories added).*1 ∧
    length (repositories added) = 3 ∧
    length (iam.resources st) = 3 ∧
    NoDup (iam.resources st) ∧
    Lit "*" ∉ iam.resources st.
Proof.
  intros Hf.
  destruct (ContainerStack_adds scope id env)
    as (added & _ & _ & (r & st & Hrepos & Hroles & Hpolicy & Hres & _) & _ & Hrun).
  exists added, r, st. split; [by apply Hrun|].
  assert (Hlen : length (repositories added) = 3).
  { by rewrite <- (length_fmap fst), Hrepos. }
  split_and!; try done.
  - by rewrite Hres, !length_fmap.
  - rewrite Hres, Hrepos. apply (NoDup_fmap_2 _), (NoDup_fmap_2 _). decided.
  - rewrite Hres. intros (p & Hp & _)%list_elem_of_fmap. discriminate Hp.
Qed.

(** C5: wherever [ContainerStack] is instantiated, it declares three
    repositories, each with scan-on-push enabled and a single retention
    cap, 30, 10 and 30 images in declaration order, every cap strictly
    positive. *)
Theorem repositories_scanned_and_capped scope id env (t : Tree) :
  fresh (child scope id) t →
  ∃ added,
    ContainerStack scope id env t = inr (child scope id, extends t added) ∧
    map (λ x, ecr.repository_name x.2) (repositories added)
      = ["aaa-service"; "spicedb"; "aadhaar-validation-service"] ∧
    map (λ x, retention_caps x.2) (repositories added)
      = [[30]; [10]; [30]]%N ∧
    Forall (λ x, ecr.image_scan_on_push x.2 = true) (repositories added) ∧
    Forall (λ x, retention_caps x.2 ≠ [] ∧
                 Forall (λ cap, (0 < cap)%N) (retention_caps x.2))
           (repositories added).
Proof.
  intros Hf.
  destruct (ContainerStack_adds scope id env)
    as (added & _ & _ & _ & (Hnames & Hcaps & Hscan & Hpos & _) & Hrun).
  exists added. split; [by apply Hrun|]. by split_and!.
Qed.

(** C9: wherever [ContainerStack] is instantiated, each of its three
    repositories is declared with removal policy RETAIN, so deleting its
    declaration leaves the repository in place. *)
Theorem repositories_retained scope id env (t : Tree) :
  fresh (child scope id) t →
  ∃ added,
    ContainerStack scope id env t = inr (child scope id, extends t added) ∧
    (repositories added).*1
      = child (child scope id) <$>
          [ "AaaServiceRepository"; "SpiceDBRepository";
            "AadhaarValidationRepository" ] ∧
    Forall (λ x, ecr.removal_policy x.2 = RETAIN ∧
                 on_delete (ecr.removal_policy x.2) = Retained)
           (repositories added).
Proof.
  intros Hf.
  destruct (ContainerStack_adds scope id env)
    as (added & _ & _ & (r & st & Hrepos & _) & (_ & _ & _ & _ & Hretain) & Hrun).
  exists added. split; [by apply Hrun|]. by split_and!.
Qed.

(** C10: wherever [ContainerStack] is instantiated, the registry-pull
    role has no managed policy and one statement, which allows four
    actions, the three pull actions and the layer-availability check; none
    of them pushes, writes or deletes. *)
Theorem pull_role_actions_read_only scope id env (t : Tree) :
  fresh (child scope id) t →
  ∃ added r st,
    ContainerStack scope id env t = inr (child scope id, extends t added) ∧
    roles added = [(child (child scope id) "EcrAccessRole", r)] ∧
    iam.managed_policies r = [] ∧
    iam.policy r = [st] ∧
    iam.effect st = iam.ALLOW ∧
    iam.actions st
      = [ "ecr:GetDownloadUrlForLayer"; "ecr:BatchGetImage";
          "ecr:BatchCheckLayerAvailability"; "ecr:GetAuthorizationToken" ] ∧
    length (iam.actions st) = 4 ∧
    Forall (λ x, is_write_action x = false) (iam.actions st).
Proof.
  intros Hf.
  destruct (ContainerStack_adds scope id env)
    as (added & _ & _ & (r & st & _ & Hroles & Hpolicy & _ & _ & Hmanaged & _
                         & Heffect & Hactions & Hread) & _ & Hrun).
  exists added, r, st. split; [by apply Hrun|].
  split_and!; try done. by rewrite Hactions.
Qed.

(** ** The Access-Control stack *)



(** ** Further properties of the stacks *)

(** X1: in any scope and environment, on any tree with no node at or
    below the stack's own path, [IamStack] raises nothing, returns its
    path, leaves the context and the earlier nodes as they were, and
    declares after them the same seven nodes it declares in an empty app:
    itself, three roles and three outputs, in that order. *)
Theorem IamStack_frame scope id env (t : Tree) :
  fresh (child scope id) t →
  ∃ added,
    IamStack scope id env t = inr (child scope id, extends t added) ∧
    IamStack scope id env (App (context t))
      = inr (child scope id, extends (App (context t)) added) ∧
    added.*1 = child scope id ::
               (child (child scope id) <$>
                 [ "DatabaseAccessRole"; "DatabaseMonitoringRole";
                   "DatabaseBackupRole"; "DatabaseAccessRoleARN";
                   "DatabaseMonitoringRoleARN"; "DatabaseBackupRoleARN" ]) ∧
    kind <$> added.*2
      = [KStack; KRole; KRole; KRole; KOutput; KOutput; KOutput].
Proof.
  intros Hf.
  destruct (IamStack_adds scope id env)
    as (added & Hpaths & Hkinds & _ & _ & _ & _ & _ & Hrun).
  exists added. split_and!; [by apply Hrun | apply Hrun, fresh_App | done..].
Qed.

(** X2: likewise [ContainerStack], in any scope and on any tree fresh
    below its path, declares itself, three repositories, the pull role and
    three outputs after the earlier nodes, exactly as in an empty app. *)
Theorem ContainerStack_frame scope id env (t : Tree) :
  fresh (child scope id) t →
  ∃ added,
    ContainerStack scope id env t = inr (child scope id, extends t added) ∧
    ContainerStack scope id env (App (context t))
      = inr (child scope id, extends (App (context t)) added) ∧
    added.*1 = child scope id ::
               (child (child scope id) <$>
                 [ "AaaServiceRepository"; "SpiceDBRepository";
                   "AadhaarValidationRepository"; "EcrAccessRole";
                   "AaaServiceRepositoryURI"; "SpiceDBRepositoryURI";
                   "AadhaarValidationRepositoryURI" ]) ∧
    kind <$> added.*2
      = [ KStack; KRepository; KRepository; KRepository; KRole;
          KOutput; KOutput; KOutput ].
Proof.
  intros Hf.
  destruct (ContainerStack_adds scope id env)
    as (added & Hpaths & Hkinds & _ & _ & Hrun).
  exists added. split_and!; [by apply Hrun | apply Hrun, fresh_App | done..].
Qed.

(** X3: [DatabaseStack] never returns.  In any scope, on any tree fresh
    below its path, it ends with an exception after declaring itself, the
    VPC, the security group, the secret and as many role imports as the
    context resolves in the order access, monitoring, backup: the import's
    exception at the first absent identifier, the exception of
    [rds.InstanceProps] when all three are there.  The earlier nodes and
    the context are untouched, the nodes built are those it builds in an
    empty app with that context, and no parameter group, cluster or output
    is among them. *)
Theorem DatabaseStack_frame scope id env (t : Tree) :
  fresh (child scope id) t →
  ∃ e built,
    DatabaseStack scope id env t = inl (e, extends t built) ∧
    DatabaseStack scope id env (App (context t))
      = inl (e, extends (App (context t)) built) ∧
    built.*1 = child scope id ::
               (child (child scope id) <$>
                 ([ "DatabaseVPC"; "DatabaseSecurityGroup";
                    "DatabaseCredentials" ] ++
                  take (length (imported_roles built))
                    [ "ImportedDatabaseAccessRole"; "ImportedMonitoringRole";
                      "ImportedBackupRole" ])%list) ∧
    match context t !! "database_access_role_arn",
          context t !! "monitoring_role_arn",
          context t !! "backup_role_arn" with
    | Some a, Some m, Some b =>
        (e, imported_role_arns built) = (TypeError "monitoring_role", [a; m; b])
    | Some a, Some m, None =>
        (e, imported_role_arns built) = (TypeError "role_arn", [a; m])
    | Some a, None, _ =>
        (e, imported_role_arns built) = (TypeError "role_arn", [a])
    | None, _, _ =>
        (e, imported_role_arns built) = (TypeError "role_arn", [])
    end ∧
    clusters built = [] ∧
    outputs built = [] ∧
    Forall (λ n, kind n.2 ≠ KParameterGroup) built.
Proof.
  intros Hf.
  destruct (DatabaseStack_builds scope id env (context t))
    as (e & built & Hpaths & Hcase & Hclusters & Houtputs & _ & Hpg & _ & Hrun).
  exists e, built.
  split_and!; [by apply Hrun | by apply Hrun; [apply fresh_App|] | done..].
Qed.

(** X12: wherever [ContainerStack] is instantiated, the pull role's single
    statement is scoped to the ARNs of the repositories that same stack
    declares, and the stack's outputs are those repositories' URIs. *)
Theorem ContainerStack_wiring scope id env (t : Tree) :
  fresh (child scope id) t →
  ∃ added r st,
    ContainerStack scope id env t = inr (child scope id, extends t added) ∧
    (repositories added).*1
      = child (child scope id) <$>
          [ "AaaServiceRepository"; "SpiceDBRepository";
            "AadhaarValidationRepository" ] ∧
    roles added = [(child (child scope id) "EcrAccessRole", r)] ∧
    iam.policy r = [st] ∧
    iam.resources st = repository_arn <$> (repositories added).*1 ∧
    (λ o, value o.2) <$> outputs added
      = repository_uri <$> (repositories added).*1.
Proof.
  intros Hf.
  destruct (ContainerStack_adds scope id env)
    as (added & _ & _ & (r & st & Hrepos & Hroles & Hpolicy & Hres & Hout & _)
        & _ & Hrun).
  exists added, r, st. split; [by apply Hrun|]. by split_and!.
Qed.

(** X13: wherever [IamStack] is instantiated, the inline statement added
    with [add_to_policy] lands on the database-access role and on no other
    role, and the stack's outputs are the ARNs of the three roles it
    declares, in declaration order. *)
Theorem IamStack_wiring scope id env (t : Tree) :
  fresh (child scope id) t →
  ∃ added,
    IamStack scope id env t = inr (child scope id, extends t added) ∧
    (roles added).*1
      = child (child scope id) <$>
          [ "DatabaseAccessRole"; "DatabaseMonitoringRole";
            "DatabaseBackupRole" ] ∧
    (λ r, length (iam.policy r.2)) <$> roles added = [1; 0; 0] ∧
    (λ o, value o.2) <$> outputs added = role_arn <$> (roles added).*1.
Proof.
  intros Hf.
  destruct (IamStack_adds scope id env)
    as (added & _ & _ & Hroles & Hpolicies & Hout & _ & _ & Hrun).
  exists added. split; [by apply Hrun|]. by split_and!.
Qed.

(** X10: the roles the stacks declare and what they are granted inline:
    [IamStack] declares three roles, assumable by the RDS, RDS monitoring
    and backup services, and one inline statement, allowing, on the
    database-access role and naming the wildcard resource; the monitoring
    and backup roles are granted managed policies only; [ContainerStack]
    declares one role, assumable by ECS tasks, with one allowing statement
    that does not name the wildcard resource. *)
Theorem role_grants_surface scope id env (ctx : gmap string string) :
  ∃ iam ecr,
    IamStack scope id env (App ctx)
      = inr (child scope id, extends (App ctx) iam) ∧
    ContainerStack scope id env (App ctx)
      = inr (child scope id, extends (App ctx) ecr) ∧
    (λ r, iam.service (iam.assumed_by r.2)) <$> roles iam
      = [ "rds.amazonaws.com"; "monitoring.rds.amazonaws.com";
          "backup.amazonaws.com" ] ∧
    (λ r, iam.service (iam.assumed_by r.2)) <$> roles ecr
      = [ "ecs-tasks.amazonaws.com" ] ∧
    (statements iam).*1 = [child (child scope id) "DatabaseAccessRole"] ∧
    (statements ecr).*1 = [child (child scope id) "EcrAccessRole"] ∧
    Forall (λ s, iam.effect s.2 = iam.ALLOW ∧ Lit "*" ∈ iam.resources s.2)
           (statements iam) ∧
    Forall (λ s, iam.effect s.2 = iam.ALLOW ∧ Lit "*" ∉ iam.resources s.2)
           (statements ecr) ∧
    Forall (λ r, iam.policy r.2 = [] → iam.managed_policies r.2 ≠ [])
           (roles iam).
Proof.
  destruct (IamStack_adds scope id env)
    as (iam & _ & _ & _ & _ & _ & _ & (Hsvc & Hst & Hallow & Hmanaged) & Hiam).
  destruct (ContainerStack_adds scope id env)
    as (ecr & _ & _ & (r & st & Hrepos & Hroles & Hpolicy & Hres & _ & _ & Hsvc'
                       & Heffect & _) & _ & Hecr).
  exists iam, ecr.
  assert (Hstatements : statements ecr = [(child (child scope id) "EcrAccessRole", st)]).
  { unfold statements. rewrite Hroles. simpl. by rewrite Hpolicy. }
  split_and!; try done; try (by apply Hiam, fresh_App); try (by apply Hecr, fresh_App).
  - by rewrite Hroles; simpl; rewrite Hsvc'.
  - by rewrite Hstatements.
  - rewrite Hstatements. repeat constructor; [done|]. simpl. rewrite Hres.
    intros (p & Hp & _)%list_elem_of_fmap. discriminate Hp.
Qed.

(** X15: wherever [DatabaseStack] is instantiated, it declares one VPC of
    two subnet tiers, public and private with egress, with distinct names
    and /24 masks, at most two availability zones and one NAT gateway;
    its security group belongs to that VPC and allows all outbound
    traffic. *)
Theorem vpc_tiers_consistent scope id env (t : Tree) :
  fresh (child scope id) t →
  ∃ e built v g,
    DatabaseStack scope id env t = inl (e, extends t built) ∧
    vpcs built = [(child (child scope id) "DatabaseVPC", v)] ∧
    NoDup (ec2.name <$> ec2.subnet_configuration v) ∧
    Forall (λ sc, ec2.cidr_mask sc = 24%N) (ec2.subnet_configuration v) ∧
    ec2.subnet_type <$> ec2.subnet_configuration v
      = [ec2.PUBLIC; ec2.PRIVATE_WITH_EGRESS] ∧
    ec2.max_azs v = 2%N ∧
    ec2.nat_gateways v = 1%N ∧
    security_groups built
      = [(child (child scope id) "DatabaseSecurityGroup", g)] ∧
    ec2.vpc g = child (child scope id) "DatabaseVPC" ∧
    ec2.allow_all_outbound g = true.
Proof.
  intros Hf.
  destruct (DatabaseStack_builds scope id env (context t))
    as (e & built & _ & _ & _ & _ & _ & _ & (v & g & r & s & Hshape) & Hrun).
  destruct Hshape
    as (? & ? & _ & ? & ? & _ & _ & _ & ? & ? & ? & ? & ? & _).
  exists e, built, v, g. split; [by apply Hrun|]. by split_and!.
Qed.

(** ** The script as a whole *)

(** X4: the script never reaches [ContainerStack] or [app.synth()]: on
    every context it ends with an exception raised inside
    [DatabaseStack], so nothing reaches the provisioning engine.  The tree
    it leaves holds the Access-Control stack as [IamStack] builds it
    alone, then the nodes of the Data-Tier stack built so far, both stacks
    in region ap-south-1 and in the account of the context, and nothing of
    the Container-Registry stack, no cluster and no repository. *)
Theorem app_never_synthesizes (ctx : gmap string string) :
  ∃ e t' iam,
    app (App ctx) = inl (e, t') ∧
    main ctx = inl e ∧
    provisioned (main ctx) = [] ∧
    context t' = ctx ∧
    IamStack [] "AaaServiceIamStack" (deployment_env ctx) (App ctx)
      = inr (["AaaServiceIamStack"], extends (App ctx) iam) ∧
    in_stack "AaaServiceIamStack" (nodes t') = iam ∧
    in_stack "AaaServiceContainerStack" (nodes t') = [] ∧
    stacks (nodes t')
      = [ (["AaaServiceIamStack"], deployment_env ctx);
          (["AaaServiceDatabaseStack"], deployment_env ctx) ] ∧
    clusters (nodes t') = [] ∧
    repositories (nodes t') = [].
Proof.
  unfold deployment_env, extends.
  destruct (ctx !! "database_access_role_arn") as [a|] eqn:Ha;
    [destruct (ctx !! "monitoring_role_arn") as [m|] eqn:Hm;
      [destruct (ctx !! "backup_role_arn") as [b|] eqn:Hb|]|];
    unfold main, App; cbn; rewrite ?Ha; cbn; rewrite ?Hm; cbn; rewrite ?Hb; cbn;
    (generalize (ctx !! "account"); intros ?;
     eexists _, _, _; split; [reflexivity|];
     do 4 (split; [reflexivity|]); split_and!; evaluated).
Qed.

(** X5: in the tree the script leaves, and in what [ContainerStack]
    declares in an app of its own, there is no dangling reference: every
    object a node holds (a VPC, a role, a repository, or the node behind a
    deploy-time attribute in an ingress rule, a policy resource or an
    output) is declared earlier, is of a kind its holder accepts, and lies
    in the holder's own stack. *)
Theorem references_declared_earlier (ctx : gmap string string) :
  ∃ e t' ecr,
    app (App ctx) = inl (e, t') ∧
    ContainerStack [] "AaaServiceContainerStack" (deployment_env ctx) (App ctx)
      = inr (["AaaServiceContainerStack"], extends (App ctx) ecr) ∧
    well_referenced (nodes t') ∧
    well_referenced ecr.
Proof.
  unfold deployment_env, extends.
  destruct (ctx !! "database_access_role_arn") as [a|] eqn:Ha;
    [destruct (ctx !! "monitoring_role_arn") as [m|] eqn:Hm;
      [destruct (ctx !! "backup_role_arn") as [b|] eqn:Hb|]|];
    unfold App; cbn; rewrite ?Ha; cbn; rewrite ?Hm; cbn; rewrite ?Hb; cbn;
    (generalize (ctx !! "account"); intros ?;
     eexists _, _, _; split; [reflexivity|]; split; [reflexivity|];
     split; apply well_referenced_decide; decided).
Qed.

(** ** The theorems at concrete inputs *)

Lemma db_ingress_only_from_vpc_witness :
  fresh (child ["Platform"] "Data") occupied_tree ∧
  (∃ e built v g r,
    DatabaseStack ["Platform"] "Data" (deployment_env example_context)
      occupied_tree
      = inl (e, extends occupied_tree built) ∧
    vpcs built = [(child (child ["Platform"] "Data") "DatabaseVPC", v)] ∧
    security_groups built
      = [(child (child ["Platform"] "Data") "DatabaseSecurityGroup", g)] ∧
    ec2.vpc g = child (child ["Platform"] "Data") "DatabaseVPC" ∧
    ec2.ingress_rules g = [r] ∧
    ec2.connection r = ec2.tcp 5432 ∧
    ec2.peer r
      = ec2.ipv4 (vpc_cidr_block
                    (child (child ["Platform"] "Data") "DatabaseVPC")) ∧
    (∀ ρ, resolve ρ (ec2.cidr (ec2.peer r))
          = ρ (child (child ["Platform"] "Data") "DatabaseVPC") "CidrBlock") ∧
    ec2.peer r ≠ ec2.any_ipv4 ∧
    Forall (λ g', Forall (λ r', ec2.peer r' ≠ ec2.any_ipv4)
                         (ec2.ingress_rules g'.2))
           (security_groups built)).
Proof.
  assert (Hf : fresh (child ["Platform"] "Data") occupied_tree)
    by (unfold fresh; decided).
  split; [exact Hf|].
  exact (db_ingress_only_from_vpc ["Platform"] "Data" (deployment_env example_context)
           occupied_tree Hf).
Defined.

Lemma credential_secret_shape_witness :
  fresh (child ["Platform"] "Data") occupied_tree ∧
  (∃ e built s,
    DatabaseStack ["Platform"] "Data" (deployment_env example_context)
      occupied_tree
      = inl (e, extends occupied_tree built) ∧
    secrets built = [(child (child ["Platform"] "Data") "DatabaseCredentials", s)] ∧
    let g := secretsmanager.generate_secret_string s in
    secretsmanager.secret_string_template g
      = json_object [("username", "aaa_user")] ∧
    secretsmanager.generate_string_key g = "password" ∧
    chars (secretsmanager.exclude_characters g)
      = [dquote; "@"; "/"; backslash]%char ∧
    NoDup (chars (secretsmanager.exclude_characters g))).
Proof.
  assert (Hf : fresh (child ["Platform"] "Data") occupied_tree)
    by (unfold fresh; decided).
  split; [exact Hf|].
  exact (credential_secret_shape ["Platform"] "Data" (deployment_env example_context)
           occupied_tree Hf).
Defined.

Lemma pull_role_resources_are_the_repositories_witness :
  fresh (child ["Platform"] "Registry") occupied_tree ∧
  (∃ added r st,
    ContainerStack ["Platform"] "Registry" (deployment_env example_context)
      occupied_tree
      = inr (child ["Platform"] "Registry", extends occupied_tree added) ∧
    roles added = [(child (child ["Platform"] "Registry") "EcrAccessRole", r)] ∧
    iam.policy r = [st] ∧
    iam.resources st = repository_arn <$> (repositories added).*1 ∧
    length (repositories added) = 3 ∧
    length (iam.resources st) = 3 ∧
    NoDup (iam.resources st) ∧
    Lit "*" ∉ iam.resources st).
Proof.
  assert (Hf : fresh (child ["Platform"] "Registry") occupied_tree)
    by (unfold fresh; decided).
  split; [exact Hf|].
  exact (pull_role_resources_are_the_repositories ["Platform"] "Registry" (deployment_env example_context)
           occupied_tree Hf).
Defined.

Lemma repositories_scanned_and_capped_witness :
  fresh (child ["Platform"] "Registry") occupied_tree ∧
  (∃ added,
    ContainerStack ["Platform"] "Registry" (deployment_env example_context)
      occupied_tree
      = inr (child ["Platform"] "Registry", extends occupied_tree added) ∧
    map (λ x, ecr.repository_name x.2) (repositories added)
      = ["aaa-service"; "spicedb"; "aadhaar-validation-service"] ∧
    map (λ x, retention_caps x.2) (repositories added)
      = [[30]; [10]; [30]]%N ∧
    Forall (λ x, ecr.image_scan_on_push x.2 = true) (repositories added) ∧
    Forall (λ x, retention_caps x.2 ≠ [] ∧
                 Forall (λ cap, (0 < cap)%N) (retention_caps x.2))
           (repositories added)).
Proof.
  assert (Hf : fresh (child ["Platform"] "Registry") occupied_tree)
    by (unfold fresh; decided).
  split; [exact Hf|].
  exact (repositories_scanned_and_capped ["Platform"] "Registry" (deployment_env example_context)
           occupied_tree Hf).
Defined.

Lemma repositories_retained_witness :
  fresh (child ["Platform"] "Registry") occupied_tree ∧
  (∃ added,
    ContainerStack ["Platform"] "Registry" (deployment_env example_context)
      occupied_tree
      = inr (child ["Platform"] "Registry", extends occupied_tree added) ∧
    (repositories added).*1
      = child (child ["Platform"] "Registry") <$>
          [ "AaaServiceRepository"; "SpiceDBRepository";
            "AadhaarValidationRepository" ] ∧
    Forall (λ x, ecr.removal_policy x.2 = RETAIN ∧
                 on_delete (ecr.removal_policy x.2) = Retained)
           (repositories added)).
Proof.
  assert (Hf : fresh (child ["Platform"] "Registry") occupied_tree)
    by (unfold fresh; decided).
  split; [exact Hf|].
  exact (repositories_retained ["Platform"] "Registry" (deployment_env example_context)
           occupied_tree Hf).
Defined.

Lemma pull_role_actions_read_only_witness :
  fresh (child ["Platform"] "Registry") occupied_tree ∧
  (∃ added r st,
    ContainerStack ["Platform"] "Registry" (deployment_env example_context)
      occupied_tree
      = inr (child ["Platform"] "Registry", extends occupied_tree added) ∧
    roles added = [(child (child ["Platform"] "Registry") "EcrAccessRole", r)] ∧
    iam.managed_policies r = [] ∧
    iam.policy r = [st] ∧
    iam.effect st = iam.ALLOW ∧
    iam.actions st
      = [ "ecr:GetDownloadUrlForLayer"; "ecr:BatchGetImage";
          "ecr:BatchCheckLayerAvailability"; "ecr:GetAuthorizationToken" ] ∧
    length (iam.actions st) = 4 ∧
    Forall (λ x, is_write_action x = false) (iam.actions st)).
Proof.
  assert (Hf : fresh (child ["Platform"] "Registry") occupied_tree)
    by (unfold fresh; decided).
  split; [exact Hf|].
  exact (pull_role_actions_read_only ["Platform"] "Registry" (deployment_env example_context)
           occupied_tree Hf).
Defined.


Lemma IamStack_frame_witness :
  fresh (child ["Platform"] "Iam") occupied_tree ∧
  (∃ added,
    IamStack ["Platform"] "Iam" (deployment_env example_context)
      occupied_tree
      = inr (child ["Platform"] "Iam", extends occupied_tree added) ∧
    IamStack ["Platform"] "Iam" (deployment_env example_context)
      (App (context occupied_tree))
      = inr (child ["Platform"] "Iam", extends (App (context occupied_tree)) added) ∧
    added.*1 = child ["Platform"] "Iam" ::
               (child (child ["Platform"] "Iam") <$>
                 [ "DatabaseAccessRole"; "DatabaseMonitoringRole";
                   "DatabaseBackupRole"; "DatabaseAccessRoleARN";
                   "DatabaseMonitoringRoleARN"; "DatabaseBackupRoleARN" ]) ∧
    kind <$> added.*2
      = [KStack; KRole; KRole; KRole; KOutput; KOutput; KOutput]).
Proof.
  assert (Hf : fresh (child ["Platform"] "Iam") occupied_tree)
    by (unfold fresh; decided).
  split; [exact Hf|].
  exact (IamStack_frame ["Platform"] "Iam" (deployment_env example_context)
           occupied_tree Hf).
Defined.

Lemma ContainerStack_frame_witness :
  fresh (child ["Platform"] "Registry") occupied_tree ∧
  (∃ added,
    ContainerStack ["Platform"] "Registry" (deployment_env example_context)
      occupied_tree
      = inr (child ["Platform"] "Registry", extends occupied_tree added) ∧
    ContainerStack ["Platform"] "Registry" (deployment_env example_context)
      (App (context occupied_tree))
      = inr (child ["Platform"] "Registry", extends (App (context occupied_tree)) added) ∧
    added.*1 = child ["Platform"] "Registry" ::
               (child (child ["Platform"] "Registry") <$>
                 [ "AaaServiceRepository"; "SpiceDBRepository";
                   "AadhaarValidationRepository"; "EcrAccessRole";
                   "AaaServiceRepositoryURI"; "SpiceDBRepositoryURI";
                   "AadhaarValidationRepositoryURI" ]) ∧
    kind <$> added.*2
      = [ KStack; KRepository; KRepository; KRepository; KRole;
          KOutput; KOutput; KOutput ]).
Proof.
  assert (Hf : fresh (child ["Platform"] "Registry") occupied_tree)
    by (unfold fresh; decided).
  split; [exact Hf|].
  exact (ContainerStack_frame ["Platform"] "Registry" (deployment_env example_context)
           occupied_tree Hf).
Defined.

Lemma DatabaseStack_frame_witness :
  fresh (child ["Platform"] "Data") occupied_tree ∧
  (∃ e built,
    DatabaseStack ["Platform"] "Data" (deployment_env example_context)
      occupied_tree
      = inl (e, extends occupied_tree built) ∧
    DatabaseStack ["Platform"] "Data" (deployment_env example_context)
      (App (context occupied_tree))
      = inl (e, extends (App (context occupied_tree)) built) ∧
    built.*1 = child ["Platform"] "Data" ::
               (child (child ["Platform"] "Data") <$>
                 ([ "DatabaseVPC"; "DatabaseSecurityGroup";
                    "DatabaseCredentials" ] ++
                  take (length (imported_roles built))
                    [ "ImportedDatabaseAccessRole"; "ImportedMonitoringRole";
                      "ImportedBackupRole" ])%list) ∧
    (e, imported_role_arns built)
      = (TypeError "monitoring_role", [access_arn; monitoring_arn; backup_arn]) ∧
    clusters built = [] ∧
    outputs built = [] ∧
    Forall (λ n, kind n.2 ≠ KParameterGroup) built).
Proof.
  assert (Hf : fresh (child ["Platform"] "Data") occupied_tree)
    by (unfold fresh; decided).
  split; [exact Hf|].
  exact (DatabaseStack_frame ["Platform"] "Data" (deployment_env example_context)
           occupied_tree Hf).
Defined.

Lemma ContainerStack_wiring_witness :
  fresh (child ["Platform"] "Registry") occupied_tree ∧
  (∃ added r st,
    ContainerStack ["Platform"] "Registry" (deployment_env example_context)
      occupied_tree
      = inr (child ["Platform"] "Registry", extends occupied_tree added) ∧
    (repositories added).*1
      = child (child ["Platform"] "Registry") <$>
          [ "AaaServiceRepository"; "SpiceDBRepository";
            "AadhaarValidationRepository" ] ∧
    roles added = [(child (child ["Platform"] "Registry") "EcrAccessRole", r)] ∧
    iam.policy r = [st] ∧
    iam.resources st = repository_arn <$> (repositories added).*1 ∧
    (λ o, value o.2) <$> outputs added
      = repository_uri <$> (repositories added).*1).
Proof.
  assert (Hf : fresh (child ["Platform"] "Registry") occupied_tree)
    by (unfold fresh; decided).
  split; [exact Hf|].
  exact (ContainerStack_wiring ["Platform"] "Registry" (deployment_env example_context)
           occupied_tree Hf).
Defined.

Lemma IamStack_wiring_witness :
  fresh (child ["Platform"] "Iam") occupied_tree ∧
  (∃ added,
    IamStack ["Platform"] "Iam" (deployment_env example_context)
      occupied_tree
      = inr (child ["Platform"] "Iam", extends occupied_tree added) ∧
    (roles added).*1
      = child (child ["Platform"] "Iam") <$>
          [ "DatabaseAccessRole"; "DatabaseMonitoringRole";
            "DatabaseBackupRole" ] ∧
    (λ r, length (iam.policy r.2)) <$> roles added = [1; 0; 0] ∧
    (λ o, value o.2) <$> outputs added = role_arn <$> (roles added).*1).
Proof.
  assert (Hf : fresh (child ["Platform"] "Iam") occupied_tree)
    by (unfold fresh; decided).
  split; [exact Hf|].
  exact (IamStack_wiring ["Platform"] "Iam" (deployment_env example_context)
           occupied_tree Hf).
Defined.

Lemma vpc_tiers_consistent_witness :
  fresh (child ["Platform"] "Data") occupied_tree ∧
  (∃ e built v g,
    DatabaseStack ["Platform"] "Data" (deployment_env example_context)
      occupied_tree
      = inl (e, extends occupied_tree built) ∧
    vpcs built = [(child (child ["Platform"] "Data") "DatabaseVPC", v)] ∧
    NoDup (ec2.name <$> ec2.subnet_configuration v) ∧
    Forall (λ sc, ec2.cidr_mask sc = 24%N) (ec2.subnet_configuration v) ∧
    ec2.subnet_type <$> ec2.subnet_configuration v
      = [ec2.PUBLIC; ec2.PRIVATE_WITH_EGRESS] ∧
    ec2.max_azs v = 2%N ∧
    ec2.nat_gateways v = 1%N ∧
    security_groups built
      = [(child (child ["Platform"] "Data") "DatabaseSecurityGroup", g)] ∧
    ec2.vpc g = child (child ["Platform"] "Data") "DatabaseVPC" ∧
    ec2.allow_all_outbound g = true).
Proof.
  assert (Hf : fresh (child ["Platform"] "Data") occupied_tree)
    by (unfold fresh; decided).
  split; [exact Hf|].
  exact (vpc_tiers_consistent ["Platform"] "Data" (deployment_env example_context)
           occupied_tree Hf).
Defined.
